(** * StormpathUser: credential normalisation, login, logout, confirm, token issuance

    A shallow embedding of [common/models/stormpath-user.js].  The model's
    methods are written in continuation-passing style against two external
    collaborators (the account directory behind [findOne]/[findById]/[save],
    and the access-token store behind [accessTokens.create]/[findById]/
    [destroy]) and against [bcrypt.compare].  Every call to a collaborator
    is a node of a finite program tree ([Prog]); the value a method hands to
    its callback [fn] is the leaf.  Numbers that the code treats as seconds
    or status codes are integers ([Z]); a string is the sequence of its
    code units, so [indexOf] and [substring] count positions as the code
    does. *)

From Stdlib Require Import ZArith Ascii String List Bool Lia.
From stdpp Require Import gmap strings pretty.

Open Scope string_scope.
Open Scope Z_scope.

(** ** JavaScript values used by the model *)

(** [new Error(message)] with the two properties the code assigns. *)
Record JsError := mkError {
  message : string;
  statusCode : option Z;
  code : option string
}.

(** Truthiness of a possibly-missing string property: [undefined] and the
    empty string are falsy. *)
Definition truthy (v : option string) : bool :=
  match v with
  | Some s => negb (String.eqb s "")
  | None => false
  end.

(** Truthiness of a possibly-missing number: [undefined] and [0] are falsy. *)
Definition truthy_num (v : option Z) : bool :=
  match v with
  | Some n => negb (n =? 0)
  | None => false
  end.

(** [name.indexOf(pat)]: position of the first occurrence, [-1] if none. *)
Definition indexOf (name pat : string) : Z :=
  match index 0 pat name with
  | Some i => Z.of_nat i
  | None => -1
  end.

(** [name.substring(a, b)] for [0 <= a <= b]. *)
Definition substring2 (name : string) (a b : Z) : string :=
  substring (Z.to_nat a) (Z.to_nat b - Z.to_nat a) name.

(** [name.substring(a)]: from position [a] to the end. *)
Definition substring1 (name : string) (a : Z) : string :=
  substring (Z.to_nat a) (String.length name - Z.to_nat a) name.

(** ** Data model *)

(** What a requested [ttl] can be: [undefined], [null], a number, or a
    string of decimal digits ([TtlDecimal n] is the string that spells [n],
    such as "0" or "3600").  Nothing checks the [ttl] of a request body, so
    it need not be a number.  Other strings, booleans, arrays and objects
    are left out. *)
Inductive TtlValue :=
| TtlUndefined
| TtlNull
| TtlNumber (n : Z)
| TtlDecimal (n : N).

(** A [ttl] that is a number or missing. *)
Definition ofNumber (ttl : option Z) : TtlValue :=
  match ttl with
  | Some n => TtlNumber n
  | None => TtlUndefined
  end.

(** [typeof v === 'object']: of these values, only [null]. *)
Definition typeofObject (v : TtlValue) : bool :=
  match v with
  | TtlNull => true
  | _ => false
  end.

(** Truthiness: [undefined], [null] and [0] are falsy; a non-empty string is
    truthy, "0" included. *)
Definition truthyTtl (v : TtlValue) : bool :=
  match v with
  | TtlUndefined | TtlNull => false
  | TtlNumber n => negb (n =? 0)
  | TtlDecimal _ => true
  end.

(** [v || b] as [Math.min] reads it: [b] for a falsy [v]; a truthy number
    as it is; a truthy string of digits converted to the number it spells. *)
Definition ttlOr (v : TtlValue) (b : Z) : Z :=
  if truthyTtl v then
    match v with
    | TtlNumber n => n
    | TtlDecimal n => Z.of_N n
    | TtlUndefined | TtlNull => b
    end
  else b.

(** The [credentials] object of [login]; it also serves as the [options]
    object of [createAccessToken], of which only [ttl] is read. *)
Record Credentials := mkCredentials {
  c_username : option string;
  c_email : option string;
  c_password : option string;
  c_realm : option string;
  c_ttl : TtlValue
}.

(** The [where] clause built by [normalizeCredentials]. *)
Record Query := mkQuery {
  q_email : option string;
  q_username : option string;
  q_realm : option string
}.

(** A user instance as the model reads it. *)
Record Account := mkAccount {
  a_id : string;
  a_username : option string;
  a_email : option string;
  a_realm : option string;
  a_password : option string;
  a_emailVerified : bool;
  a_verificationToken : option string
}.

(** An access token; [t_data_user] is [token.__data.user]. *)
Record AccessToken := mkAccessToken {
  t_id : string;
  t_ttl : Z;
  t_userId : string;
  t_data_user : option Account
}.

(** [settings] as configured, before [setup] fills in the defaults. *)
Record ModelSettings := mkModelSettings {
  m_ttl : option Z;
  m_maxTTL : option Z;
  m_realmRequired : bool;
  m_realmDelimiter : option string;
  m_emailVerificationRequired : bool
}.

(** [settings] after [setup]. *)
Record Settings := mkSettings {
  s_ttl : Z;
  s_maxTTL : Z;
  s_realmRequired : bool;
  s_realmDelimiter : option string;
  s_emailVerificationRequired : bool
}.

Definition DEFAULT_TTL : Z := 1209600.
Definition DEFAULT_RESET_PW_TTL : Z := 15 * 60.
Definition DEFAULT_MAX_TTL : Z := 31556926.

(** [a || b] on numbers. *)
Definition or_num (a : option Z) (b : Z) : Z :=
  match a with
  | Some n => if n =? 0 then b else n
  | None => b
  end.

(** The two assignments of [StormpathUser.setup] that touch [settings]. *)
Definition setup (m : ModelSettings) : Settings :=
  {| s_maxTTL := or_num (m_maxTTL m) DEFAULT_MAX_TTL;
     s_ttl := or_num (m_ttl m) DEFAULT_TTL;
     s_realmRequired := m_realmRequired m;
     s_realmDelimiter := m_realmDelimiter m;
     s_emailVerificationRequired := m_emailVerificationRequired m |}.

(** ** Credential normalisation *)

Definition splitPrincipal (name : string) (realmDelimiter : option string)
  : option string * string :=
  let parts := (None, name) in
  if negb (truthy realmDelimiter) then parts
  else
    let d := default "" realmDelimiter in
    let index := indexOf name d in
    if negb (index =? -1)
    then (Some (substring2 name 0 index),
          substring1 name (index + Z.of_nat (String.length d)))
    else parts.

Definition emptyCredentials : Credentials :=
  mkCredentials None None None None TtlUndefined.

Definition emptyQuery : Query := mkQuery None None None.

Definition set_email (q : Query) (v : string) : Query :=
  {| q_email := Some v; q_username := q_username q; q_realm := q_realm q |}.
Definition set_username (q : Query) (v : string) : Query :=
  {| q_email := q_email q; q_username := Some v; q_realm := q_realm q |}.
Definition set_realm (q : Query) (v : option string) : Query :=
  {| q_email := q_email q; q_username := q_username q; q_realm := v |}.

Definition normalizeCredentials (credentials : option Credentials)
    (realmRequired : bool) (realmDelimiter : option string) : Query :=
  let query := emptyQuery in
  let credentials := default emptyCredentials credentials in
  if negb realmRequired then
    if truthy (c_email credentials)
    then set_email query (default "" (c_email credentials))
    else if truthy (c_username credentials)
    then set_username query (default "" (c_username credentials))
    else query
  else
    let query :=
      if truthy (c_realm credentials)
      then set_realm query (c_realm credentials) else query in
    if truthy (c_email credentials) then
      let parts := splitPrincipal (default "" (c_email credentials)) realmDelimiter in
      let query := set_email query (snd parts) in
      if truthy (fst parts) then set_realm query (fst parts) else query
    else if truthy (c_username credentials) then
      let parts := splitPrincipal (default "" (c_username credentials)) realmDelimiter in
      let query := set_username query (snd parts) in
      if truthy (fst parts) then set_realm query (fst parts) else query
    else query.

(** ** Programs over the external collaborators *)

(** One constructor per call that leaves the model; the index is the type
    of the arguments the collaborator passes to the callback.  Node-style
    callbacks [(err, value)] whose value may be [null] are pairs of options;
    [err] is inspected first, as the code does.  [Uncaught] is an exception
    thrown inside a callback and caught by nobody: the model does not call
    [fn], and what is seen instead is the environment's answer. *)
Inductive Event : Type -> Type :=
| Debug (msg : string) : Event unit
| FindOne (where_ : Query) : Event (option JsError * option Account)
| FindById (uid : string) : Event (option JsError * option Account)
| Save (user : Account) : Event (option JsError)
| BcryptCompare (plain hash : string) : Event (option JsError * bool)
| AccessTokensCreate (user : Account) (ttl : Z) : Event (JsError + AccessToken)
| AccessTokenFindById (tokenId : string) : Event (option JsError * option AccessToken)
| AccessTokenDestroy (token : AccessToken) : Event (option JsError)
| Uncaught (err : JsError) : Event (option JsError * option AccessToken).

Inductive Prog (A : Type) : Type :=
| Ret (a : A)
| Vis {X : Type} (e : Event X) (k : X -> Prog A).

Arguments Ret {A} a.
Arguments Vis {A X} e k.

Fixpoint bind {A B : Type} (p : Prog A) (f : A -> Prog B) : Prog B :=
  match p with
  | Ret a => f a
  | Vis e k => Vis e (fun x => bind (k x) f)
  end.

(** ** Access-token issuance *)

(** The call shapes of [createAccessToken]: a [ttl] that is not an object
    literal, with or without [options] ([(ttl, cb)], [(ttl, options, cb)]),
    and an options object alone ([(options, cb)]).  The first test of the
    function only moves [cb] into place. *)
Inductive CreateArgs :=
| ArgsTtl (ttl : TtlValue) (options : option Credentials)
| ArgsOptions (options : Credentials).

(** Number of declared parameters of [createAccessToken], which the source
    attaches to [User.prototype] and [login] calls on the account found. *)
Definition createAccessToken_length : Z := 3.

(** [createAccessToken] either throws before it calls anything, or goes on
    to call the token store. *)
Inductive CreateOutcome :=
| Throws (err : JsError)
| Calls (p : Prog (JsError + AccessToken)).

(** The TypeError of reading [options.ttl] when [options] is [null]; the
    text of the message is the engine's. *)
Definition nullTtlError : JsError :=
  mkError "Cannot read property 'ttl' of null" None None.

Definition isMissing (options : option Credentials) : bool :=
  match options with
  | Some _ => false
  | None => true
  end.

Definition createAccessToken (this : Account) (settings : Settings)
    (args : CreateArgs) : CreateOutcome :=
  match args with
  | ArgsTtl ttl options =>
      if typeofObject ttl && isMissing options
      then Throws nullTtlError
      else
        let ttl := Z.min (ttlOr ttl (s_ttl settings)) (s_maxTTL settings) in
        Calls (Vis (AccessTokensCreate this ttl) Ret)
  | ArgsOptions options =>
      let ttl := c_ttl options in
      let ttl := Z.min (ttlOr ttl (s_ttl settings)) (s_maxTTL settings) in
      Calls (Vis (AccessTokensCreate this ttl) Ret)
  end.

(** ** Password check *)

Definition hasPassword (this : Account) (plain : option string)
  : Prog (option JsError * bool) :=
  if truthy (a_password this) && truthy plain then
    Vis (BcryptCompare (default "" plain) (default "" (a_password this)))
        (fun r =>
           match fst r with
           | Some err => Ret (Some err, false)
           | None => Ret (None, snd r)
           end)
  else Ret (None, false).

(** ** Login *)

Inductive Include :=
| IncludeUndefined
| IncludeString (s : string)
| IncludeArray (l : list string).

Definition toLowerCase_ascii (c : ascii) : ascii :=
  let n := nat_of_ascii c in
  if ((65 <=? n) && (n <=? 90))%nat then ascii_of_nat (n + 32) else c.

(** [s.toLowerCase()] on the ASCII range. *)
Fixpoint toLowerCase (s : string) : string :=
  match s with
  | EmptyString => EmptyString
  | String c r => String (toLowerCase_ascii c) (toLowerCase r)
  end.

Definition normalizeInclude (include : Include) : Include :=
  match include with
  | IncludeUndefined => IncludeString (toLowerCase "")
  | IncludeString s => IncludeString (toLowerCase s)
  | IncludeArray l => IncludeArray (map toLowerCase l)
  end.

Definition includesUser (include : Include) : bool :=
  match include with
  | IncludeArray l => existsb (String.eqb "user") l
  | IncludeString s => String.eqb s "user"
  | IncludeUndefined => false
  end.

Definition LoginResult : Type := option JsError * option AccessToken.

Definition err1 : JsError :=
  mkError "realm is required" (Some 400) (Some "REALM_REQUIRED").
Definition err2 : JsError :=
  mkError "username or email is required" (Some 400) (Some "USERNAME_EMAIL_REQUIRED").
Definition defaultError : JsError :=
  mkError "login failed" (Some 401) (Some "LOGIN_FAILED").
Definition errNotVerified : JsError :=
  mkError "login failed as the email has not been verified" (Some 401)
          (Some "LOGIN_FAILED_EMAIL_NOT_VERIFIED").

Definition set_data_user (token : AccessToken) (user : Account) : AccessToken :=
  {| t_id := t_id token; t_ttl := t_ttl token; t_userId := t_userId token;
     t_data_user := Some user |}.

Definition tokenHandler (include : Include) (user : Account)
    (r : JsError + AccessToken) : LoginResult :=
  match r with
  | inl err => (Some err, None)
  | inr token =>
      if includesUser include
      then (None, Some (set_data_user token user))
      else (None, Some token)
  end.

(** [createAccessToken(..., cb)] called from inside a callback of [login]:
    [cb] gets what the token store answers; an exception thrown by
    [createAccessToken] is caught by nobody. *)
Definition calling (r : CreateOutcome) (cb : JsError + AccessToken -> LoginResult)
  : Prog LoginResult :=
  match r with
  | Calls p => bind p (fun t => Ret (cb t))
  | Throws err => Vis (Uncaught err) Ret
  end.

(** The callback [login] passes to [findOne]. *)
Definition login_findOne_cb (settings : Settings) (credentials : Credentials)
    (include : Include) (query : Query)
    (r : option JsError * option Account) : Prog LoginResult :=
  match fst r with
  | Some _ =>
      Vis (Debug "An error is reported from StormpathUser.findOne: %j")
          (fun _ => Ret (Some defaultError, None))
  | None =>
      match snd r with
      | Some user =>
          bind (hasPassword user (c_password credentials)) (fun m =>
            match fst m with
            | Some _ =>
                Vis (Debug "An error is reported from StormpathUser.hasPassword: %j")
                    (fun _ => Ret (Some defaultError, None))
            | None =>
                if snd m then
                  if s_emailVerificationRequired settings && negb (a_emailVerified user)
                  then Vis (Debug "StormpathUser email has not been verified")
                           (fun _ => Ret (Some errNotVerified, None))
                  else if createAccessToken_length =? 2
                  then calling (createAccessToken user settings
                                  (ArgsTtl (c_ttl credentials) None))
                               (tokenHandler include user)
                  else calling (createAccessToken user settings
                                  (ArgsTtl (c_ttl credentials) (Some credentials)))
                               (tokenHandler include user)
                else
                  Vis (Debug "The password is invalid for user %s")
                      (fun _ => Ret (Some defaultError, None))
            end)
      | None =>
          Vis (Debug "No matching record is found for user %s")
              (fun _ => Ret (Some defaultError, None))
      end
  end.

Definition realmRequiredOf (settings : Settings) : bool :=
  s_realmRequired settings || truthy (s_realmDelimiter settings).

Definition login (settings : Settings) (credentials : Credentials)
    (include : Include) : Prog LoginResult :=
  let include := normalizeInclude include in
  let realmRequired := realmRequiredOf settings in
  let realmDelimiter := if realmRequired then s_realmDelimiter settings else None in
  let query := normalizeCredentials (Some credentials) realmRequired realmDelimiter in
  if realmRequired && negb (truthy (q_realm query)) then Ret (Some err1, None)
  else if negb (truthy (q_email query)) && negb (truthy (q_username query))
  then Ret (Some err2, None)
  else Vis (FindOne query) (login_findOne_cb settings credentials include query).

(** The [where] clause [login] computes. *)
Definition loginQuery (settings : Settings) (credentials : Credentials) : Query :=
  let realmRequired := realmRequiredOf settings in
  normalizeCredentials (Some credentials) realmRequired
    (if realmRequired then s_realmDelimiter settings else None).

(** ** Logout *)

Definition tokenNotFound : JsError :=
  mkError "could not find accessToken" None None.

Definition logout (tokenId : string) : Prog (option JsError) :=
  Vis (AccessTokenFindById tokenId) (fun r =>
    match fst r with
    | Some err => Ret (Some err)
    | None =>
        match snd r with
        | Some accessToken => Vis (AccessTokenDestroy accessToken) Ret
        | None => Ret (Some tokenNotFound)
        end
    end).

(** ** Confirm *)

(** [v === token] for a possibly-[undefined] property and a string. *)
Definition strictEq (v : option string) (token : string) : bool :=
  match v with
  | Some s => String.eqb s token
  | None => false
  end.

Definition confirmed (user : Account) : Account :=
  {| a_id := a_id user; a_username := a_username user; a_email := a_email user;
     a_realm := a_realm user; a_password := a_password user;
     a_emailVerified := true; a_verificationToken := None |}.

Definition invalidToken (token : string) : JsError :=
  mkError ("Invalid token: " ++ token) (Some 400) (Some "INVALID_TOKEN").
Definition userNotFound (uid : string) : JsError :=
  mkError ("StormpathUser not found: " ++ uid) (Some 404) (Some "USER_NOT_FOUND").

Definition confirm (uid token : string) (redirect : option string)
  : Prog (option JsError) :=
  Vis (FindById uid) (fun r =>
    match fst r with
    | Some err => Ret (Some err)
    | None =>
        match snd r with
        | Some user =>
            if strictEq (a_verificationToken user) token
            then Vis (Save (confirmed user)) (fun err =>
                   match err with
                   | Some e => Ret (Some e)
                   | None => Ret None
                   end)
            else Ret (Some (invalidToken token))
        | None => Ret (Some (userNotFound uid))
        end
    end).

(** ** Running a program against the collaborators *)

Definition AnyEvent : Type := sigT Event.

(** How the collaborators answer, over any representation [W] of their
    state. *)
Definition Handler (W : Type) : Type := forall X, Event X -> W -> X * W.

Record Run (A W : Type) := mkRun {
  outcome : A;
  final : W;
  trace : list AnyEvent
}.
Arguments mkRun {A W} _ _ _.
Arguments outcome {A W} _.
Arguments final {A W} _.
Arguments trace {A W} _.

Fixpoint run {A W : Type} (h : Handler W) (p : Prog A) (w : W) : Run A W :=
  match p with
  | Ret a => mkRun a w []
  | Vis e k =>
      let xw := h _ e w in
      let r := run h (k (fst xw)) (snd xw) in
      mkRun (outcome r) (final r) (existT _ e :: trace r)
  end.

Definition isTokenCreate (e : AnyEvent) : bool :=
  match projT2 e with
  | AccessTokensCreate _ _ => true
  | _ => false
  end.

Definition isBcryptCompare (e : AnyEvent) : bool :=
  match projT2 e with
  | BcryptCompare _ _ => true
  | _ => false
  end.

(** ** An in-memory account directory and access-token store *)

(** Modelled from the spec: the Account Directory ([findOne], [findById],
    [save]) and the Session Store ([create], [findById], [destroy]) are
    external services; this is the exact-match store their contracts
    describe, with no failures of its own.  [bcrypt.compare] is a
    parameter. *)
Record World := mkWorld {
  accounts : gmap string Account;
  tokens : gmap string AccessToken;
  nextTokenId : nat
}.

Definition fieldMatches (wanted actual : option string) : bool :=
  match wanted with
  | None => true
  | Some v => strictEq actual v
  end.

Definition matchesWhere (q : Query) (a : Account) : bool :=
  fieldMatches (q_email q) (a_email a)
  && fieldMatches (q_username q) (a_username a)
  && fieldMatches (q_realm q) (a_realm a).

Definition tokenIdOf (n : nat) : string := "token-" ++ pretty n.

Definition memHandler (compare : string -> string -> option JsError * bool)
  : Handler World :=
  fun X e =>
    match e in Event X return World -> X * World with
    | Debug _ => fun w => (tt, w)
    | FindOne q => fun w =>
        ((None, List.find (matchesWhere q) (map snd (map_to_list (accounts w)))), w)
    | FindById uid => fun w => ((None, accounts w !! uid), w)
    | Save user => fun w =>
        (None, mkWorld (<[a_id user := user]> (accounts w)) (tokens w) (nextTokenId w))
    | BcryptCompare plain hash => fun w => (compare plain hash, w)
    | AccessTokensCreate user ttl => fun w =>
        let token := mkAccessToken (tokenIdOf (nextTokenId w)) ttl (a_id user) None in
        (inr token,
         mkWorld (accounts w) (<[t_id token := token]> (tokens w)) (S (nextTokenId w)))
    | AccessTokenFindById tokenId => fun w => ((None, tokens w !! tokenId), w)
    | AccessTokenDestroy token => fun w =>
        (None, mkWorld (accounts w) (delete (t_id token) (tokens w)) (nextTokenId w))
    | Uncaught err => fun w => ((Some err, None), w)
    end.

(** A stand-in for bcrypt used in examples: the hash of [p] is ["$2a$" ++ p]. *)
Definition toyCompare (plain hash : string) : option JsError * bool :=
  (None, String.eqb hash ("$2a$" ++ plain)).

Definition alice : Account :=
  mkAccount "u1" (Some "alice") (Some "alice@example.com") (Some "tenantA")
            (Some "$2a$secret") false (Some "tok123").

Definition world0 : World :=
  mkWorld {[ "u1" := alice ]} ∅ 0.

Definition defaultSettings : Settings :=
  setup (mkModelSettings None None false None false).

(** A directory whose [save] writes the properties the instance defines
    and keeps the stored value of a property the instance leaves
    [undefined]: a property assigned [undefined] is not part of the data a
    store is sent, and a store that merges what it is sent into the record
    it holds keeps what it had.  Everything else is as in [memHandler]. *)
Definition keep (stored instance : option string) : option string :=
  match instance with
  | Some v => Some v
  | None => stored
  end.

Definition mergeSaved (stored instance : Account) : Account :=
  {| a_id := a_id instance;
     a_username := keep (a_username stored) (a_username instance);
     a_email := keep (a_email stored) (a_email instance);
     a_realm := keep (a_realm stored) (a_realm instance);
     a_password := keep (a_password stored) (a_password instance);
     a_emailVerified := a_emailVerified instance;
     a_verificationToken :=
       keep (a_verificationToken stored) (a_verificationToken instance) |}.

Definition mergingDirectory (compare : string -> string -> option JsError * bool)
  : Handler World :=
  fun X e =>
    match e in Event X return World -> X * World with
    | Save user => fun w =>
        (None,
         mkWorld (<[a_id user :=
                      match accounts w !! a_id user with
                      | Some stored => mergeSaved stored user
                      | None => user
                      end]> (accounts w))
                 (tokens w) (nextTokenId w))
    | e' => memHandler compare _ e'
    end.

(** Collaborators that fail, for the examples. *)
Definition ioError : JsError := mkError "connect ECONNREFUSED" None None.
Definition bcryptError : JsError := mkError "Not a valid BCrypt hash." None None.

Definition failingCompare (plain hash : string) : option JsError * bool :=
  (Some bcryptError, false).

Definition unreachableDirectory : Handler World :=
  fun X e =>
    match e in Event X return World -> X * World with
    | FindOne _ => fun w => ((Some ioError, None), w)
    | FindById _ => fun w => ((Some ioError, None), w)
    | Save _ => fun w => (Some ioError, w)
    | e' => memHandler toyCompare _ e'
    end.

Definition verifyingSettings : Settings :=
  setup (mkModelSettings None None false None true).

Definition realmSettings : Settings :=
  setup (mkModelSettings None None true (Some "/") false).

Definition session : AccessToken := mkAccessToken "token-0" 1209600 "u1" None.

(** [world0] after a login: one live token. *)
Definition world1 : World :=
  mkWorld {[ "u1" := alice ]} {[ "token-0" := session ]} 1.

Definition byUsername (name password : string) : Credentials :=
  mkCredentials (Some name) None (Some password) None TtlUndefined.

(** The [where] clause of the directory lookup a program starts with, if
    it starts with one. *)
Definition lookupOf {A : Type} (p : Prog A) : option Query :=
  match p with
  | Ret _ => None
  | Vis e _ =>
      match e with
      | FindOne q => Some q
      | _ => None
      end
  end.

(** The [ttl] a program asks the token store for, if it starts by creating
    a token. *)
Definition issuedTtl {A : Type} (p : Prog A) : option Z :=
  match p with
  | Ret _ => None
  | Vis e _ =>
      match e with
      | AccessTokensCreate _ ttl => Some ttl
      | _ => None
      end
  end.

(** The [ttl] [createAccessToken] asks the token store for, if it gets that
    far. *)
Definition createdTtl (r : CreateOutcome) : option Z :=
  match r with
  | Calls p => issuedTtl p
  | Throws _ => None
  end.

(** An options object with its [ttl] property set. *)
Definition setTtl (options : Credentials) (ttl : TtlValue) : Credentials :=
  {| c_username := c_username options; c_email := c_email options;
     c_password := c_password options; c_realm := c_realm options;
     c_ttl := ttl |}.

(** The four ways a login that reached the directory lookup fails on the
    credentials: the lookup reports an error, it finds nobody, the password
    check reports an error, or the password does not match. *)
Inductive LoginFailureCause {W : Type} (h : Handler W) (w : W)
    (credentials : Credentials) (query : Query) : Prop :=
| Cause_lookup_error e u w' :
    h _ (FindOne query) w = ((Some e, u), w') ->
    LoginFailureCause h w credentials query
| Cause_no_match w' :
    h _ (FindOne query) w = ((None, None), w') ->
    LoginFailureCause h w credentials query
| Cause_compare_error user w' e :
    h _ (FindOne query) w = ((None, Some user), w') ->
    fst (outcome (run h (hasPassword user (c_password credentials)) w')) = Some e ->
    LoginFailureCause h w credentials query
| Cause_mismatch user w' :
    h _ (FindOne query) w = ((None, Some user), w') ->
    outcome (run h (hasPassword user (c_password credentials)) w') = (None, false) ->
    LoginFailureCause h w credentials query.

(** Every stored record sits under its own id. *)
Definition keyedById (w : World) : Prop :=
  (forall k a, accounts w !! k = Some a -> a_id a = k) /\
  (forall k t, tokens w !! k = Some t -> t_id t = k).

(** ** What the documentation says a split is *)

(** The relation between a principal string, the configured delimiter and
    the pair (realm part, principal part), in the documentation's words:
    nothing is split off when the delimiter is unconfigured or absent;
    otherwise the string is cut around the first occurrence. *)
Inductive SplitSpec (name : string) (realmDelimiter : option string)
  : option string -> string -> Prop :=
| Split_unconfigured :
    truthy realmDelimiter = false ->
    SplitSpec name realmDelimiter None name
| Split_absent d :
    realmDelimiter = Some d -> d <> "" ->
    (forall p : nat, substring p (String.length d) name <> d) ->
    SplitSpec name realmDelimiter None name
| Split_first d before after :
    realmDelimiter = Some d -> d <> "" ->
    name = before ++ d ++ after ->
    (forall p : nat, (p < String.length before)%nat ->
                     substring p (String.length d) name <> d) ->
    SplitSpec name realmDelimiter (Some before) after.

(** The realm of the query: a non-empty part before the delimiter wins over
    [credentials.realm]; otherwise a non-empty [credentials.realm] is kept. *)
Definition realmOf (before explicit : option string) : option string :=
  if truthy before then before
  else if truthy explicit then explicit else None.

(** The normalised query, case by case. *)
Inductive NormalizeSpec (c : Credentials) (realmDelimiter : option string)
  : bool -> Query -> Prop :=
| Norm_plain_email v :
    c_email c = Some v -> v <> "" ->
    NormalizeSpec c realmDelimiter false (mkQuery (Some v) None None)
| Norm_plain_username v :
    truthy (c_email c) = false -> c_username c = Some v -> v <> "" ->
    NormalizeSpec c realmDelimiter false (mkQuery None (Some v) None)
| Norm_plain_none :
    truthy (c_email c) = false -> truthy (c_username c) = false ->
    NormalizeSpec c realmDelimiter false (mkQuery None None None)
| Norm_realm_email v before after :
    c_email c = Some v -> v <> "" ->
    SplitSpec v realmDelimiter before after ->
    NormalizeSpec c realmDelimiter true
      (mkQuery (Some after) None (realmOf before (c_realm c)))
| Norm_realm_username v before after :
    truthy (c_email c) = false -> c_username c = Some v -> v <> "" ->
    SplitSpec v realmDelimiter before after ->
    NormalizeSpec c realmDelimiter true
      (mkQuery None (Some after) (realmOf before (c_realm c)))
| Norm_realm_none :
    truthy (c_email c) = false -> truthy (c_username c) = false ->
    NormalizeSpec c realmDelimiter true
      (mkQuery None None (realmOf None (c_realm c))).

(** ** Password validation *)

(** The values handed to [validatePassword] and found in a request body:
    [undefined], [null], booleans and strings (numbers and objects are left
    out). *)
Inductive JsValue :=
| JsUndefined
| JsNull
| JsBool (b : bool)
| JsString (s : string).

(** ['...' + v]. *)
Definition toString (v : JsValue) : string :=
  match v with
  | JsUndefined => "undefined"
  | JsNull => "null"
  | JsBool true => "true"
  | JsBool false => "false"
  | JsString s => s
  end.

Definition truthyValue (v : JsValue) : bool :=
  match v with
  | JsUndefined | JsNull => false
  | JsBool b => b
  | JsString s => negb (String.eqb s "")
  end.

Definition isString (v : JsValue) : bool :=
  match v with
  | JsString _ => true
  | _ => false
  end.

(** [validatePassword]: [inr true] is [return true], [inl err] is
    [throw err]. *)
Definition validatePassword (plain : JsValue) : JsError + bool :=
  if isString plain && truthyValue plain then inr true
  else inl (mkError ("Invalid password: " ++ toString plain) (Some 422) None).

(** ** Remote hooks installed by [setup] *)

(** The request body of a remote [create]. *)
Record CreateBody := mkCreateBody {
  b_username : option string;
  b_email : option string;
  b_password : option string;
  b_emailVerified : JsValue
}.

(** The [beforeRemote('create')] hook, on [ctx.req.body]. *)
Definition beforeRemoteCreate (body : option CreateBody) : option CreateBody :=
  match body with
  | Some b =>
      if truthyValue (b_emailVerified b)
      then Some {| b_username := b_username b; b_email := b_email b;
                   b_password := b_password b; b_emailVerified := JsBool false |}
      else Some b
  | None => None
  end.

(** [ctx.res] as the [afterRemote('confirm')] hook writes it. *)
Record Response := mkResponse {
  r_location : option string;
  r_status : option Z
}.

Definition noRedirectSupport : JsError :=
  mkError "The transport does not support HTTP redirects." None None.

(** The [afterRemote('confirm')] hook: the response it leaves and the
    argument it gives to [next]. *)
Definition afterRemoteConfirm (redirect : option string) (res : option Response)
  : option Response * option JsError :=
  match redirect with
  | Some target =>
      match res with
      | None => (res, Some noRedirectSupport)
      | Some r => (Some {| r_location := Some target; r_status := Some 302 |}, None)
      end
  | None => (res, None)
  end.

(** ** Reading traces *)

Definition isDebug (e : AnyEvent) : bool :=
  match projT2 e with
  | Debug _ => true
  | _ => false
  end.

Definition isFindOne (e : AnyEvent) : bool :=
  match projT2 e with
  | FindOne _ => true
  | _ => false
  end.

(** The calls to the collaborators, logging aside. *)
Definition externalCalls (t : list AnyEvent) : list AnyEvent :=
  List.filter (fun e => negb (isDebug e)) t.

(** One lookup, then at most one comparison, then at most one token
    creation, and nothing else. *)
Definition loginCallShape (t : list AnyEvent) : bool :=
  match t with
  | [] => true
  | e1 :: t1 =>
      isFindOne e1 &&
      match t1 with
      | [] => true
      | e2 :: t2 =>
          isBcryptCompare e2 &&
          match t2 with
          | [] => true
          | [e3] => isTokenCreate e3
          | _ => false
          end
      end
  end.

(** The accounts a trace asks the directory to save. *)
Definition savedAccounts (t : list AnyEvent) : list Account :=
  flat_map (fun e => match projT2 e with
                     | Save user => [user]
                     | _ => []
                     end) t.

(** The token requests of a trace: for whom, and with which [ttl]. *)
Definition tokenRequests (t : list AnyEvent) : list (Account * Z) :=
  flat_map (fun e => match projT2 e with
                     | AccessTokensCreate user ttl => [(user, ttl)]
                     | _ => []
                     end) t.

(** The comparisons of a trace: plaintext and hash. *)
Definition comparisons (t : list AnyEvent) : list (string * string) :=
  flat_map (fun e => match projT2 e with
                     | BcryptCompare plain hash => [(plain, hash)]
                     | _ => []
                     end) t.

(** Calls that [confirm] has no business making. *)
Definition isConfirmCall (e : AnyEvent) : bool :=
  match projT2 e with
  | FindById _ | Save _ => true
  | _ => false
  end.

(** A token store that refuses, for the examples. *)
Definition refusingTokenStore : Handler World :=
  fun X e =>
    match e in Event X return World -> X * World with
    | AccessTokensCreate _ _ => fun w => (inl ioError, w)
    | e' => memHandler toyCompare _ e'
    end.

(** A string that reads "user" when letter case is ignored. *)
Definition spellsUser (s : string) : Prop :=
  exists c1 c2 c3 c4 : ascii,
    s = String c1 (String c2 (String c3 (String c4 "")))
    /\ (c1 = "u" \/ c1 = "U")%char /\ (c2 = "s" \/ c2 = "S")%char
    /\ (c3 = "e" \/ c3 = "E")%char /\ (c4 = "r" \/ c4 = "R")%char.

(** * Properties *)

(** ** Strings *)

Lemma truthy_Some (v : option string) :
  truthy v = true -> exists s, v = Some s /\ s <> "".
Proof.
  destruct v as [s|]; simpl; [|discriminate].
  intros H. exists s. split; [reflexivity|].
  intros ->. discriminate.
Qed.

Lemma truthy_nonempty (s : string) : s <> "" -> truthy (Some s) = true.
Proof.
  intros H. simpl. destruct (String.eqb_spec s ""); [contradiction|reflexivity].
Qed.

Lemma substring_length (s : string) :
  forall n m, String.length (substring n m s) = Nat.min m (String.length s - n).
Proof.
  induction s as [|c s IH]; intros [|n] [|m]; simpl; try reflexivity.
  - rewrite IH. rewrite Nat.sub_0_r. reflexivity.
  - apply IH.
  - apply IH.
Qed.

Lemma substring_nil (n m : nat) : substring n m "" = "".
Proof. destruct n, m; reflexivity. Qed.

Lemma substring_add (s : string) :
  forall n a b, substring n (a + b) s = substring n a s ++ substring (n + a) b s.
Proof.
  induction s as [|c s IH]; intros n a b.
  - now rewrite !substring_nil.
  - destruct n as [|n].
    + destruct a as [|a]; simpl.
      * reflexivity.
      * now rewrite (IH 0%nat a b).
    + change (substring (S n) (a + b) (String c s)) with (substring n (a + b) s).
      change (substring (S n) a (String c s)) with (substring n a s).
      change (substring (S n + a) b (String c s)) with (substring (n + a) b s).
      apply IH.
Qed.

Lemma substring_whole (s : string) : substring 0 (String.length s) s = s.
Proof. induction s as [|c s IH]; simpl; [reflexivity | now rewrite IH]. Qed.

(** A string is its part before position [i], the [m] characters from
    [i], and the rest. *)
Lemma substring_cut (s : string) (i m : nat) :
  (i + m <= String.length s)%nat ->
  s = substring 0 i s ++ substring i m s
        ++ substring (i + m) (String.length s - (i + m)) s.
Proof.
  intros H.
  rewrite <- (substring_add s i m).
  pose proof (substring_add s 0%nat i (m + (String.length s - (i + m)))) as E.
  simpl in E. rewrite <- E.
  replace (i + (m + (String.length s - (i + m))))%nat with (String.length s) by lia.
  symmetry. apply substring_whole.
Qed.

Lemma index_bound (d s : string) (i : nat) :
  d <> "" -> index 0 d s = Some i -> (i + String.length d <= String.length s)%nat.
Proof.
  intros Hd Hi. apply index_correct1 in Hi.
  assert (L : String.length d = Nat.min (String.length d) (String.length s - i)).
  { rewrite <- substring_length. now rewrite Hi. }
  assert (P : (0 < String.length d)%nat).
  { destruct d; [contradiction | simpl; lia]. }
  lia.
Qed.

Lemma substring_skip (a b : string) (n m : nat) :
  substring (String.length a + n) m (a ++ b) = substring n m b.
Proof. induction a as [|c a IH]; simpl; [reflexivity | exact IH]. Qed.

Lemma substring_prefix (d r : string) :
  substring 0 (String.length d) (d ++ r) = d.
Proof.
  induction d as [|c d IH]; simpl.
  - destruct r; reflexivity.
  - now rewrite IH.
Qed.

Lemma substring_at_occurrence (before d after : string) :
  substring (String.length before) (String.length d) (before ++ d ++ after) = d.
Proof.
  rewrite <- (Nat.add_0_r (String.length before)), substring_skip.
  apply substring_prefix.
Qed.

Lemma append_inj_length (a a' b b' : string) :
  String.length a = String.length a' -> a ++ b = a' ++ b' -> a = a' /\ b = b'.
Proof.
  revert a'. induction a as [|c a IH]; intros [|c' a'] L E; simpl in *;
    try discriminate.
  - split; [reflexivity | exact E].
  - injection E as -> E. injection L as L.
    destruct (IH a' L E) as [-> ->]. split; reflexivity.
Qed.

(** ** [splitPrincipal] cuts at the first occurrence *)

Lemma splitPrincipal_spec (name : string) (realmDelimiter : option string) :
  SplitSpec name realmDelimiter
    (fst (splitPrincipal name realmDelimiter))
    (snd (splitPrincipal name realmDelimiter)).
Proof.
  unfold splitPrincipal.
  destruct (truthy realmDelimiter) eqn:T; simpl.
  2: { now apply Split_unconfigured. }
  apply truthy_Some in T as (d & -> & Hd). simpl.
  unfold indexOf. destruct (index 0 d name) as [i|] eqn:Hi.
  - replace (Z.of_nat i =? -1) with false by (symmetry; apply Z.eqb_neq; lia).
    simpl. unfold substring2, substring1.
    rewrite <- Nat2Z.inj_add, !Nat2Z.id. change (Z.to_nat 0) with 0%nat.
    rewrite Nat.sub_0_r.
    pose proof (index_bound d name i Hd Hi) as B.
    apply (Split_first name (Some d) d); [reflexivity | exact Hd | |].
    + pose proof (substring_cut name i (String.length d) B) as C.
      rewrite (index_correct1 _ _ _ _ Hi) in C. exact C.
    + intros p Hp. rewrite substring_length in Hp.
      apply (index_correct2 _ _ _ _ Hi); lia.
  - simpl. apply (Split_absent name (Some d) d); [reflexivity | exact Hd |].
    intros p. apply (index_correct3 0 p d name Hi Hd). lia.
Qed.

(** The specification leaves no choice: the two parts are determined. *)
Lemma SplitSpec_functional (name : string) (realmDelimiter : option string)
    (r r' : option string) (p p' : string) :
  SplitSpec name realmDelimiter r p -> SplitSpec name realmDelimiter r' p' ->
  r = r' /\ p = p'.
Proof.
  intros H H'.
  destruct H as [T | d E Hd A | d before after E Hd N F];
    destruct H' as [T' | d' E' Hd' A' | d' before' after' E' Hd' N' F'];
    try (split; reflexivity);
    try (subst realmDelimiter; rewrite truthy_nonempty in * by assumption; discriminate);
    try (rewrite E in E'; injection E' as <-).
  - exfalso. apply (A (String.length before')). rewrite N'.
    apply substring_at_occurrence.
  - exfalso. apply (A' (String.length before)). rewrite N.
    apply substring_at_occurrence.
  - assert (L : String.length before = String.length before').
    { destruct (Nat.lt_trichotomy (String.length before) (String.length before'))
        as [Lt | [Eq | Gt]]; [exfalso | exact Eq | exfalso].
      - apply (F' _ Lt). rewrite N at 1. apply substring_at_occurrence.
      - apply (F _ Gt). rewrite N' at 1. apply substring_at_occurrence. }
    rewrite N in N'. destruct (append_inj_length _ _ _ _ L N') as [-> E2].
    destruct (append_inj_length d d after after' eq_refl E2) as [_ ->].
    split; reflexivity.
Qed.

(** ** [normalizeCredentials] meets its case-by-case description *)

Lemma normalizeCredentials_spec (c : Credentials) (realmRequired : bool)
    (realmDelimiter : option string) :
  NormalizeSpec c realmDelimiter realmRequired
    (normalizeCredentials (Some c) realmRequired realmDelimiter).
Proof.
  unfold normalizeCredentials. simpl (default emptyCredentials (Some c)).
  destruct realmRequired; simpl negb; cbv iota.
  - destruct (truthy (c_email c)) eqn:Te.
    + apply truthy_Some in Te as (v & Ev & Hv). rewrite Ev. simpl (default _ _).
      pose proof (splitPrincipal_spec v realmDelimiter) as S.
      destruct (splitPrincipal v realmDelimiter) as [before after]. simpl in *.
      pose proof (Norm_realm_email c realmDelimiter v before after Ev Hv S) as G.
      unfold realmOf in G.
      destruct (truthy before), (truthy (c_realm c)); exact G.
    + destruct (truthy (c_username c)) eqn:Tu.
      * apply truthy_Some in Tu as (v & Ev & Hv). rewrite Ev. simpl (default _ _).
        pose proof (splitPrincipal_spec v realmDelimiter) as S.
        destruct (splitPrincipal v realmDelimiter) as [before after]. simpl in *.
        pose proof (Norm_realm_username c realmDelimiter v before after Te Ev Hv S) as G.
        unfold realmOf in G.
        destruct (truthy before), (truthy (c_realm c)); exact G.
      * pose proof (Norm_realm_none c realmDelimiter Te Tu) as G.
        unfold realmOf in G. simpl in G.
        destruct (truthy (c_realm c)); exact G.
  - destruct (truthy (c_email c)) eqn:Te.
    + apply truthy_Some in Te as (v & Ev & Hv). rewrite Ev. simpl.
      now apply Norm_plain_email.
    + destruct (truthy (c_username c)) eqn:Tu.
      * apply truthy_Some in Tu as (v & Ev & Hv). rewrite Ev. simpl.
        now apply Norm_plain_username.
      * now apply Norm_plain_none.
Qed.

(** ** Running programs *)

Lemma run_bind {A B W : Type} (h : Handler W) (p : Prog A) (f : A -> Prog B) :
  forall w,
    run h (bind p f) w =
    mkRun (outcome (run h (f (outcome (run h p w))) (final (run h p w))))
          (final (run h (f (outcome (run h p w))) (final (run h p w))))
          (trace (run h p w) ++ trace (run h (f (outcome (run h p w))) (final (run h p w)))).
Proof.
  induction p as [a | X e k IH]; intros w; simpl.
  - destruct (run h (f a) w); reflexivity.
  - rewrite IH. reflexivity.
Qed.

Lemma run_Vis {A W X : Type} (h : Handler W) (e : Event X) (k : X -> Prog A) (w : W) :
  run h (Vis e k) w =
  mkRun (outcome (run h (k (fst (h _ e w))) (snd (h _ e w))))
        (final (run h (k (fst (h _ e w))) (snd (h _ e w))))
        (existT _ e :: trace (run h (k (fst (h _ e w))) (snd (h _ e w)))).
Proof. reflexivity. Qed.

(** ** [hasPassword] *)

Lemma hasPassword_falsy (user : Account) (plain : option string) :
  truthy (a_password user) && truthy plain = false ->
  hasPassword user plain = Ret (None, false).
Proof. unfold hasPassword. now intros ->. Qed.

Lemma hasPassword_no_create {W : Type} (h : Handler W) (w : W)
    (user : Account) (plain : option string) :
  existsb isTokenCreate (trace (run h (hasPassword user plain) w)) = false.
Proof.
  unfold hasPassword. destruct (truthy (a_password user) && truthy plain).
  - rewrite run_Vis. simpl.
    destruct (fst (fst (h _ (BcryptCompare _ _) w))); reflexivity.
  - reflexivity.
Qed.

Lemma hasPassword_error_no_match {W : Type} (h : Handler W) (w : W)
    (user : Account) (plain : option string) (e : JsError) :
  fst (outcome (run h (hasPassword user plain) w)) = Some e ->
  snd (outcome (run h (hasPassword user plain) w)) = false.
Proof.
  unfold hasPassword. destruct (truthy (a_password user) && truthy plain).
  - rewrite run_Vis. simpl.
    destruct (fst (fst (h _ (BcryptCompare _ _) w))); simpl; [reflexivity | discriminate].
  - discriminate.
Qed.

(** ** [login] *)

(** With an [options] argument [createAccessToken] does not throw: it asks
    the token store, and [cb] gets the answer. *)
Lemma calling_create (user : Account) (settings : Settings) (ttl : TtlValue)
    (options : Credentials) (cb : JsError + AccessToken -> LoginResult) :
  calling (createAccessToken user settings (ArgsTtl ttl (Some options))) cb
  = Vis (AccessTokensCreate user
           (Z.min (ttlOr ttl (s_ttl settings)) (s_maxTTL settings)))
        (fun t => Ret (cb t)).
Proof.
  unfold createAccessToken. simpl isMissing. rewrite andb_false_r. reflexivity.
Qed.

Lemma login_reaches_lookup (settings : Settings) (credentials : Credentials)
    (include : Include) (query : Query) :
  lookupOf (login settings credentials include) = Some query ->
  query = loginQuery settings credentials /\
  login settings credentials include =
    Vis (FindOne query)
        (login_findOne_cb settings credentials (normalizeInclude include) query).
Proof.
  unfold login, loginQuery.
  destruct (realmRequiredOf settings && negb (truthy (q_realm _))); [discriminate|].
  destruct (negb (truthy (q_email _)) && negb (truthy (q_username _))); [discriminate|].
  simpl. intros [= <-]. split; reflexivity.
Qed.

(** The callback of the lookup, on an account and a settled password check. *)
Lemma login_cb_found {W : Type} (h : Handler W) (w : W) (settings : Settings)
    (credentials : Credentials) (include : Include) (query : Query)
    (user : Account) :
  run h (login_findOne_cb settings credentials include query (None, Some user)) w =
  let hp := run h (hasPassword user (c_password credentials)) w in
  let rest :=
    run h
      (match fst (outcome hp) with
       | Some _ =>
           Vis (Debug "An error is reported from StormpathUser.hasPassword: %j")
               (fun _ => Ret (Some defaultError, None))
       | None =>
           if snd (outcome hp) then
             if s_emailVerificationRequired settings && negb (a_emailVerified user)
             then Vis (Debug "StormpathUser email has not been verified")
                      (fun _ => Ret (Some errNotVerified, None))
             else Vis (AccessTokensCreate user
                         (Z.min (ttlOr (c_ttl credentials) (s_ttl settings))
                                (s_maxTTL settings)))
                      (fun t => Ret (tokenHandler include user t))
           else Vis (Debug "The password is invalid for user %s")
                    (fun _ => Ret (Some defaultError, None))
       end) (final hp) in
  mkRun (outcome rest) (final rest) (trace hp ++ trace rest).
Proof.
  unfold login_findOne_cb. simpl fst. simpl snd. cbv iota.
  rewrite run_bind. change (createAccessToken_length =? 2) with false. cbv iota.
  rewrite calling_create. reflexivity.
Qed.

Lemma login_failed_run {W : Type} (h : Handler W) (w : W) (settings : Settings)
    (credentials : Credentials) (include : Include) (query : Query) :
  lookupOf (login settings credentials include) = Some query ->
  LoginFailureCause h w credentials query ->
  outcome (run h (login settings credentials include) w) = (Some defaultError, None)
  /\ existsb isTokenCreate (trace (run h (login settings credentials include) w)) = false.
Proof.
  intros L C. apply login_reaches_lookup in L as [_ ->].
  rewrite run_Vis.
  destruct C as [e u w' F | w' F | user w' e F P | user w' F P]; rewrite F;
    simpl fst; simpl snd.
  - unfold login_findOne_cb. simpl. split; reflexivity.
  - unfold login_findOne_cb. simpl. split; reflexivity.
  - rewrite login_cb_found. cbv zeta. rewrite P. simpl.
    rewrite existsb_app, hasPassword_no_create. split; reflexivity.
  - rewrite login_cb_found. cbv zeta. rewrite P. simpl.
    rewrite existsb_app, hasPassword_no_create. split; reflexivity.
Qed.

Lemma login_cb_no_password {W : Type} (h : Handler W) (w : W) (settings : Settings)
    (credentials : Credentials) (include : Include) (query : Query)
    (r : option JsError * option Account) :
  truthy (c_password credentials) = false ->
  outcome (run h (login_findOne_cb settings credentials include query r) w)
    = (Some defaultError, None)
  /\ existsb isTokenCreate
       (trace (run h (login_findOne_cb settings credentials include query r) w)) = false
  /\ existsb isBcryptCompare
       (trace (run h (login_findOne_cb settings credentials include query r) w)) = false.
Proof.
  intros P. destruct r as [[e|] [user|]].
  1, 2, 4: unfold login_findOne_cb; simpl; repeat split; reflexivity.
  rewrite login_cb_found. cbv zeta.
  rewrite hasPassword_falsy by (rewrite P; apply andb_false_r).
  simpl. repeat split; reflexivity.
Qed.

(** ** The claims about [login] *)

(** C5.  When a realm is required ([settings.realmRequired] is true or
    [settings.realmDelimiter] is set, that is, a non-empty string) and the
    normalised query has no realm,
    [login] hands [fn] the error REALM_REQUIRED with status 400 and calls no
    collaborator at all, whatever the password and whatever the
    collaborators would have answered. *)
Theorem C5_realm_required_before_lookup (settings : Settings)
    (credentials : Credentials) (include : Include) :
  realmRequiredOf settings = true ->
  q_realm (loginQuery settings credentials) = None ->
  login settings credentials include = Ret (Some err1, None)
  /\ code err1 = Some "REALM_REQUIRED" /\ statusCode err1 = Some 400
  /\ forall (W : Type) (h : Handler W) (w : W),
       outcome (run h (login settings credentials include) w) = (Some err1, None)
       /\ trace (run h (login settings credentials include) w) = []
       /\ final (run h (login settings credentials include) w) = w.
Proof.
  intros R Q.
  assert (E : login settings credentials include = Ret (Some err1, None)).
  { unfold login. unfold loginQuery in Q. rewrite R in *. rewrite Q. reflexivity. }
  rewrite E. repeat split; reflexivity.
Qed.

Lemma C5_realm_required_before_lookup_witness :
  realmRequiredOf realmSettings = true
  /\ q_realm (loginQuery realmSettings
                (mkCredentials (Some "alice") None (Some "secret") None TtlUndefined)) = None
  /\ outcome (run (memHandler toyCompare)
                (login realmSettings
                   (mkCredentials (Some "alice") None (Some "secret") None TtlUndefined)
                   IncludeUndefined) world0) = (Some err1, None).
Proof.
  split; [reflexivity | split; [reflexivity |]].
  apply (C5_realm_required_before_lookup realmSettings
           (mkCredentials (Some "alice") None (Some "secret") None TtlUndefined)
           IncludeUndefined eq_refl eq_refl).
Defined.

(** C6, as amended.  When the realm check passes (no realm is required, or
    the normalised query has one) and the normalised query has neither an
    email nor a username (absent or empty), [login] hands [fn] the error
    USERNAME_EMAIL_REQUIRED with status 400 and calls no collaborator. *)
Theorem C6_username_or_email_required (settings : Settings)
    (credentials : Credentials) (include : Include) :
  realmRequiredOf settings && negb (truthy (q_realm (loginQuery settings credentials)))
    = false ->
  truthy (q_email (loginQuery settings credentials)) = false ->
  truthy (q_username (loginQuery settings credentials)) = false ->
  login settings credentials include = Ret (Some err2, None)
  /\ code err2 = Some "USERNAME_EMAIL_REQUIRED" /\ statusCode err2 = Some 400
  /\ forall (W : Type) (h : Handler W) (w : W),
       outcome (run h (login settings credentials include) w) = (Some err2, None)
       /\ trace (run h (login settings credentials include) w) = []
       /\ final (run h (login settings credentials include) w) = w.
Proof.
  intros R E U.
  assert (L : login settings credentials include = Ret (Some err2, None)).
  { unfold login. unfold loginQuery in *. rewrite R, E, U. reflexivity. }
  rewrite L. repeat split; reflexivity.
Qed.

Lemma C6_username_or_email_required_witness :
  realmRequiredOf defaultSettings
    && negb (truthy (q_realm (loginQuery defaultSettings
                                (mkCredentials None None (Some "secret") None TtlUndefined))))
    = false
  /\ login defaultSettings (mkCredentials None None (Some "secret") None TtlUndefined)
       (IncludeString "user") = Ret (Some err2, None).
Proof.
  split; [reflexivity |].
  apply (C6_username_or_email_required defaultSettings
           (mkCredentials None None (Some "secret") None TtlUndefined)
           (IncludeString "user") eq_refl eq_refl eq_refl).
Defined.

(** C6 as stated fails: with [settings.realmRequired] set and empty
    credentials the normalised query has neither an email nor a username,
    yet the error is REALM_REQUIRED, because the realm check comes first. *)
Lemma C6_counterexample :
  q_email (loginQuery (setup (mkModelSettings None None true None false))
             emptyCredentials) = None
  /\ q_username (loginQuery (setup (mkModelSettings None None true None false))
                   emptyCredentials) = None
  /\ login (setup (mkModelSettings None None true None false)) emptyCredentials
       IncludeUndefined = Ret (Some err1, None)
  /\ code err1 = Some "REALM_REQUIRED"
  /\ code err1 <> Some "USERNAME_EMAIL_REQUIRED".
Proof. repeat split; try reflexivity. discriminate. Qed.

(** C1.  Two login calls that reach the directory lookup and fail there for
    any of the four causes (lookup error, no matching account, error of the
    password comparison, password mismatch) hand [fn] the same value: the
    error built before the causes are told apart, with code LOGIN_FAILED and
    status 401, and no token.  The collaborator's own error never appears in
    it. *)
Theorem C1_login_failures_indistinguishable {W1 W2 : Type}
    (h1 : Handler W1) (h2 : Handler W2) (w1 : W1) (w2 : W2)
    (s1 s2 : Settings) (c1 c2 : Credentials) (i1 i2 : Include) (q1 q2 : Query) :
  lookupOf (login s1 c1 i1) = Some q1 ->
  lookupOf (login s2 c2 i2) = Some q2 ->
  LoginFailureCause h1 w1 c1 q1 ->
  LoginFailureCause h2 w2 c2 q2 ->
  outcome (run h1 (login s1 c1 i1) w1) = (Some defaultError, None)
  /\ outcome (run h2 (login s2 c2 i2) w2) = outcome (run h1 (login s1 c1 i1) w1)
  /\ code defaultError = Some "LOGIN_FAILED"
  /\ statusCode defaultError = Some 401.
Proof.
  intros L1 L2 C1 C2.
  destruct (login_failed_run h1 w1 s1 c1 i1 q1 L1 C1) as [O1 _].
  destruct (login_failed_run h2 w2 s2 c2 i2 q2 L2 C2) as [O2 _].
  rewrite O1, O2. repeat split; reflexivity.
Qed.

(** An unknown principal against a known principal with a wrong password,
    and an unreachable directory against a failing comparison. *)
Lemma C1_login_failures_indistinguishable_witness :
  (outcome (run (memHandler toyCompare)
              (login defaultSettings (byUsername "bob" "secret") IncludeUndefined)
              world0) = (Some defaultError, None)
   /\ outcome (run (memHandler toyCompare)
                 (login defaultSettings (byUsername "alice" "wrong") IncludeUndefined)
                 world0)
      = outcome (run (memHandler toyCompare)
                   (login defaultSettings (byUsername "bob" "secret") IncludeUndefined)
                   world0))
  /\ (outcome (run unreachableDirectory
                 (login defaultSettings (byUsername "alice" "secret") IncludeUndefined)
                 world0) = (Some defaultError, None)
      /\ outcome (run (memHandler failingCompare)
                    (login defaultSettings (byUsername "alice" "secret") IncludeUndefined)
                    world0)
         = outcome (run unreachableDirectory
                      (login defaultSettings (byUsername "alice" "secret")
                         IncludeUndefined)
                      world0)).
Proof.
  split.
  - assert (Ca : LoginFailureCause (memHandler toyCompare) world0
                   (byUsername "bob" "secret") (mkQuery None (Some "bob") None))
      by (apply (Cause_no_match _ _ _ _ world0); reflexivity).
    assert (Cb : LoginFailureCause (memHandler toyCompare) world0
                   (byUsername "alice" "wrong") (mkQuery None (Some "alice") None))
      by (apply (Cause_mismatch _ _ _ _ alice world0); reflexivity).
    destruct (C1_login_failures_indistinguishable
                (memHandler toyCompare) (memHandler toyCompare) world0 world0
                defaultSettings defaultSettings
                (byUsername "bob" "secret") (byUsername "alice" "wrong")
                IncludeUndefined IncludeUndefined
                (mkQuery None (Some "bob") None) (mkQuery None (Some "alice") None)
                eq_refl eq_refl Ca Cb) as (H1 & H2 & _).
    split; assumption.
  - assert (Ca : LoginFailureCause unreachableDirectory world0
                   (byUsername "alice" "secret") (mkQuery None (Some "alice") None))
      by (apply (Cause_lookup_error _ _ _ _ ioError None world0); reflexivity).
    assert (Cb : LoginFailureCause (memHandler failingCompare) world0
                   (byUsername "alice" "secret") (mkQuery None (Some "alice") None))
      by (apply (Cause_compare_error _ _ _ _ alice world0 bcryptError); reflexivity).
    destruct (C1_login_failures_indistinguishable
                unreachableDirectory (memHandler failingCompare) world0 world0
                defaultSettings defaultSettings
                (byUsername "alice" "secret") (byUsername "alice" "secret")
                IncludeUndefined IncludeUndefined
                (mkQuery None (Some "alice") None) (mkQuery None (Some "alice") None)
                eq_refl eq_refl Ca Cb) as (H1 & H2 & _).
    split; assumption.
Defined.

(** C4.  When the lookup finds an account, the password check reports a
    match, [settings.emailVerificationRequired] is true and the account's
    [emailVerified] is false, [login] hands [fn] the error
    LOGIN_FAILED_EMAIL_NOT_VERIFIED with status 401, which is not the generic
    LOGIN_FAILED, and the token store is never asked to create a token. *)
Theorem C4_unverified_email_rejected {W : Type} (h : Handler W) (w w' : W)
    (settings : Settings) (credentials : Credentials) (include : Include)
    (query : Query) (user : Account) :
  lookupOf (login settings credentials include) = Some query ->
  h _ (FindOne query) w = ((None, Some user), w') ->
  outcome (run h (hasPassword user (c_password credentials)) w') = (None, true) ->
  s_emailVerificationRequired settings = true ->
  a_emailVerified user = false ->
  outcome (run h (login settings credentials include) w) = (Some errNotVerified, None)
  /\ code errNotVerified = Some "LOGIN_FAILED_EMAIL_NOT_VERIFIED"
  /\ statusCode errNotVerified = Some 401
  /\ code errNotVerified <> code defaultError
  /\ existsb isTokenCreate (trace (run h (login settings credentials include) w)) = false.
Proof.
  intros L F P V E. apply login_reaches_lookup in L as [_ ->].
  rewrite run_Vis, F. simpl fst. simpl snd.
  rewrite login_cb_found. cbv zeta. rewrite P, V, E. simpl.
  rewrite existsb_app, hasPassword_no_create.
  repeat split; try reflexivity. discriminate.
Qed.

Lemma C4_unverified_email_rejected_witness :
  a_emailVerified alice = false
  /\ s_emailVerificationRequired verifyingSettings = true
  /\ outcome (run (memHandler toyCompare) (hasPassword alice (Some "secret")) world0)
     = (None, true)
  /\ outcome (run (memHandler toyCompare)
                (login verifyingSettings (byUsername "alice" "secret")
                   (IncludeString "user")) world0)
     = (Some errNotVerified, None)
  /\ tokens (final (run (memHandler toyCompare)
                      (login verifyingSettings (byUsername "alice" "secret")
                         (IncludeString "user")) world0)) = ∅.
Proof.
  split; [reflexivity | split; [reflexivity | split; [reflexivity | split]]].
  - apply (C4_unverified_email_rejected (memHandler toyCompare) world0 world0
             verifyingSettings (byUsername "alice" "secret") (IncludeString "user")
             (mkQuery None (Some "alice") None) alice
             eq_refl eq_refl eq_refl eq_refl eq_refl).
  - reflexivity.
Defined.

(** C9, as amended.  When the stored hash or the supplied plaintext is absent or empty,
    [hasPassword] answers [false] with no error and without calling
    [bcrypt.compare].  Hence, for credentials whose password is absent or
    empty, whatever the directory lookup answers (any account, any stored
    hash) the callback of the lookup hands [fn] the generic LOGIN_FAILED, and
    a whole [login] call never yields a token, never asks for one and never
    calls [bcrypt.compare]; its error is LOGIN_FAILED whenever the call got
    as far as the lookup. *)
Theorem C9_empty_password_never_logs_in {W : Type} (h : Handler W) (w : W)
    (settings : Settings) (credentials : Credentials) (include : Include)
    (user : Account) (plain : option string) :
  truthy (a_password user) && truthy plain = false ->
  truthy (c_password credentials) = false ->
  hasPassword user plain = Ret (None, false)
  /\ (forall (query : Query) (r : option JsError * option Account),
        outcome (run h (login_findOne_cb settings credentials include query r) w)
          = (Some defaultError, None)
        /\ existsb isTokenCreate
             (trace (run h (login_findOne_cb settings credentials include query r) w))
           = false
        /\ existsb isBcryptCompare
             (trace (run h (login_findOne_cb settings credentials include query r) w))
           = false)
  /\ snd (outcome (run h (login settings credentials include) w)) = None
  /\ fst (outcome (run h (login settings credentials include) w)) <> None
  /\ existsb isTokenCreate (trace (run h (login settings credentials include) w)) = false
  /\ existsb isBcryptCompare (trace (run h (login settings credentials include) w)) = false
  /\ (lookupOf (login settings credentials include) <> None ->
      outcome (run h (login settings credentials include) w) = (Some defaultError, None)).
Proof.
  intros H1 H2. split; [now apply hasPassword_falsy |].
  split; [intros query r; now apply login_cb_no_password |].
  unfold login.
  destruct (realmRequiredOf settings && negb (truthy (q_realm _))).
  { simpl. repeat split; try reflexivity; try discriminate. intros N; now elim N. }
  destruct (negb (truthy (q_email _)) && negb (truthy (q_username _))).
  { simpl. repeat split; try reflexivity; try discriminate. intros N; now elim N. }
  rewrite run_Vis.
  match goal with
  | |- context [run h (login_findOne_cb ?s ?c ?i ?q ?r) ?w0] =>
      destruct (login_cb_no_password h w0 s c i q r H2) as (O & T & B)
  end.
  cbn [outcome trace existsb isTokenCreate isBcryptCompare projT2 orb].
  rewrite O, T, B. repeat split; try reflexivity. discriminate.
Qed.

(** C9 as stated fails: a login with an empty password and neither email
    nor username is rejected before the lookup, with USERNAME_EMAIL_REQUIRED
    and not with LOGIN_FAILED. *)
Lemma C9_counterexample :
  truthy (c_password (mkCredentials None None (Some "") None TtlUndefined)) = false
  /\ login defaultSettings (mkCredentials None None (Some "") None TtlUndefined)
       IncludeUndefined = Ret (Some err2, None)
  /\ code err2 = Some "USERNAME_EMAIL_REQUIRED"
  /\ code err2 <> code defaultError.
Proof. repeat split; try reflexivity. discriminate. Qed.

Lemma C9_empty_password_never_logs_in_witness :
  truthy (a_password alice) && truthy (Some "") = false
  /\ truthy (c_password (byUsername "alice" "")) = false
  /\ hasPassword alice (Some "") = Ret (None, false)
  /\ outcome (run (memHandler toyCompare)
                (login defaultSettings (byUsername "alice" "") IncludeUndefined) world0)
     = (Some defaultError, None).
Proof.
  split; [reflexivity | split; [reflexivity |]].
  destruct (C9_empty_password_never_logs_in (memHandler toyCompare) world0
              defaultSettings (byUsername "alice" "") IncludeUndefined
              alice (Some "") eq_refl eq_refl) as (A & _ & _ & _ & _ & _ & B).
  split; [exact A |].
  apply B. discriminate.
Defined.

(** ** The claim about [normalizeCredentials] *)

(** C2, as amended.  For every credentials value the normalised query is the
    one [NormalizeSpec] describes: without [realmRequired], the non-empty
    email, else the non-empty username, and never a realm; with
    [realmRequired], the principal is cut around the first occurrence of the
    configured delimiter, the part after it is stored under the same field,
    and the part before it becomes the realm (overriding
    [credentials.realm]) when it is not empty; when it is empty, or the
    delimiter is absent or unconfigured, the realm is [credentials.realm]
    if that is non-empty and unset otherwise.  Missing credentials are
    empty credentials.  With delimiter "/" the username "tenantA/alice"
    gives realm "tenantA" and username "alice"; with no delimiter the
    username "alice" gives just that username. *)
Theorem C2_normalizeCredentials_cases (c : Credentials) (realmRequired : bool)
    (realmDelimiter : option string) :
  NormalizeSpec c realmDelimiter realmRequired
    (normalizeCredentials (Some c) realmRequired realmDelimiter)
  /\ normalizeCredentials None realmRequired realmDelimiter
     = normalizeCredentials (Some emptyCredentials) realmRequired realmDelimiter
  /\ q_realm (normalizeCredentials (Some c) false realmDelimiter) = None
  /\ normalizeCredentials
       (Some (mkCredentials (Some "tenantA/alice") None None None TtlUndefined))
       true (Some "/")
     = mkQuery None (Some "alice") (Some "tenantA")
  /\ normalizeCredentials
       (Some (mkCredentials (Some "tenantA/alice") None None (Some "other") TtlUndefined))
       true (Some "/")
     = mkQuery None (Some "alice") (Some "tenantA")
  /\ normalizeCredentials
       (Some (mkCredentials (Some "alice") None None None TtlUndefined)) false None
     = mkQuery None (Some "alice") None
  /\ normalizeCredentials
       (Some (mkCredentials (Some "alice") None None None TtlUndefined)) true None
     = mkQuery None (Some "alice") None.
Proof.
  split; [apply normalizeCredentials_spec |].
  split; [reflexivity |].
  split; [| repeat split; reflexivity].
  unfold normalizeCredentials. simpl.
  destruct (truthy (c_email c)); [reflexivity |].
  destruct (truthy (c_username c)); reflexivity.
Qed.

(** C2 as stated fails where the delimiter opens the string: the first
    occurrence of "/" in "/alice" is at position 0, the part before it is
    empty, and the realm of the query is the explicit [credentials.realm],
    not that part. *)
Lemma C2_counterexample :
  SplitSpec "/alice" (Some "/") (Some "") "alice"
  /\ normalizeCredentials
       (Some (mkCredentials (Some "/alice") None None (Some "r") TtlUndefined))
       true (Some "/")
     = mkQuery None (Some "alice") (Some "r")
  /\ q_realm (normalizeCredentials
                (Some (mkCredentials (Some "/alice") None None (Some "r") TtlUndefined))
                true (Some "/"))
     <> Some "".
Proof.
  split; [| split; [reflexivity | discriminate]].
  apply (Split_first "/alice" (Some "/") "/" "" "alice");
    [reflexivity | discriminate | reflexivity |].
  intros p Hp. simpl in Hp. lia.
Qed.

(** ** The claims about [createAccessToken] *)

Lemma ttlOr_ofNumber (requested : option Z) (b : Z) :
  ttlOr (ofNumber requested) b = or_num requested b.
Proof.
  destruct requested as [n|]; [| reflexivity].
  unfold ttlOr, or_num. simpl. destruct (n =? 0); reflexivity.
Qed.

(** With a [ttl] that is a number or missing, [createAccessToken] goes on to
    the token store, whatever the call shape. *)
Lemma createAccessToken_number (user : Account) (settings : Settings)
    (requested : option Z) (options : option Credentials) :
  createAccessToken user settings (ArgsTtl (ofNumber requested) options)
  = Calls (Vis (AccessTokensCreate user
                  (Z.min (or_num requested (s_ttl settings)) (s_maxTTL settings)))
               Ret).
Proof.
  unfold createAccessToken. rewrite ttlOr_ofNumber.
  destruct requested; reflexivity.
Qed.

Lemma createAccessToken_options (user : Account) (settings : Settings)
    (requested : option Z) (o : Credentials) :
  createAccessToken user settings (ArgsOptions (setTtl o (ofNumber requested)))
  = Calls (Vis (AccessTokensCreate user
                  (Z.min (or_num requested (s_ttl settings)) (s_maxTTL settings)))
               Ret).
Proof. unfold createAccessToken. simpl c_ttl. now rewrite ttlOr_ofNumber. Qed.

(** C3.  For every account, settings and requested [ttl] that is a number
    or missing, in every call shape ([ttl] with or without options, or an
    options object carrying the [ttl]), [createAccessToken] asks the token
    store for a token whose [ttl] is the minimum of (requested ttl, or
    [settings.ttl] when none is requested) and [settings.maxTTL]; a store
    that keeps what it is given returns a token with that [ttl].  [setup]
    defaults [ttl] to 1209600 and [maxTTL] to 31556926; with that [maxTTL] a
    request of 10000000 is granted as is and a request of 40000000 is cut to
    31556926. *)
Theorem C3_createAccessToken_ttl (user : Account) (settings : Settings)
    (requested : option Z) (options : option Credentials) (o : Credentials) :
  createAccessToken user settings (ArgsTtl (ofNumber requested) options)
    = Calls (Vis (AccessTokensCreate user
                    (Z.min (or_num requested (s_ttl settings)) (s_maxTTL settings)))
                 Ret)
  /\ createAccessToken user settings (ArgsOptions (setTtl o (ofNumber requested)))
     = createAccessToken user settings (ArgsTtl (ofNumber requested) options)
  /\ (forall (compare : string -> string -> option JsError * bool) (w : World),
        exists token,
          outcome (run (memHandler compare)
                     (Vis (AccessTokensCreate user
                             (Z.min (or_num requested (s_ttl settings))
                                    (s_maxTTL settings)))
                          Ret) w)
            = inr token
          /\ t_ttl token
             = Z.min (or_num requested (s_ttl settings)) (s_maxTTL settings)
          /\ tokens (final (run (memHandler compare)
                              (Vis (AccessTokensCreate user
                                      (Z.min (or_num requested (s_ttl settings))
                                             (s_maxTTL settings)))
                                   Ret) w))
               !! t_id token = Some token)
  /\ s_ttl (setup (mkModelSettings None None false None false)) = 1209600
  /\ s_maxTTL (setup (mkModelSettings None None false None false)) = 31556926
  /\ createdTtl (createAccessToken user
                   (setup (mkModelSettings None (Some 31556926) false None false))
                   (ArgsTtl (TtlNumber 10000000) None)) = Some 10000000
  /\ createdTtl (createAccessToken user
                   (setup (mkModelSettings None (Some 31556926) false None false))
                   (ArgsTtl (TtlNumber 40000000) None)) = Some 31556926.
Proof.
  split; [apply createAccessToken_number |].
  split; [now rewrite createAccessToken_options, createAccessToken_number |].
  split; [| repeat split; reflexivity].
  intros compare w. eexists. split; [reflexivity |]. split; [reflexivity |].
  simpl. apply lookup_insert_eq.
Qed.

Lemma or_num_nonzero (a : option Z) (b : Z) : b <> 0 -> or_num a b <> 0.
Proof.
  intros B. unfold or_num. destruct a as [n|]; [| exact B].
  destruct (Z.eqb_spec n 0); assumption.
Qed.

Lemma min_nonzero (a b : Z) : a <> 0 -> b <> 0 -> Z.min a b <> 0.
Proof. lia. Qed.

(** C10, as amended.  After [setup], a requested [ttl] that is [undefined]
    or the number [0], in any call shape, or [null] passed together with an
    options argument (as [login] passes it), is replaced by [settings.ttl]
    before the minimum with [settings.maxTTL] is taken; a non-zero number is
    used as given; and for a requested [ttl] that is a number or missing the
    [ttl] asked of the token store is never [0]. *)
Theorem C10_falsy_ttl_uses_default (user : Account) (m : ModelSettings)
    (requested : option Z) (options : option Credentials) (o : Credentials) :
  createdTtl (createAccessToken user (setup m) (ArgsTtl (ofNumber requested) options))
    = Some (if truthy_num requested
            then Z.min (default 0 requested) (s_maxTTL (setup m))
            else Z.min (s_ttl (setup m)) (s_maxTTL (setup m)))
  /\ createdTtl (createAccessToken user (setup m) (ArgsTtl (ofNumber requested) options))
     <> Some 0
  /\ createdTtl (createAccessToken user (setup m)
                   (ArgsOptions (setTtl o (ofNumber requested))))
     = createdTtl (createAccessToken user (setup m)
                     (ArgsTtl (ofNumber requested) options))
  /\ createdTtl (createAccessToken user (setup m) (ArgsTtl (TtlNumber 0) options))
     = createdTtl (createAccessToken user (setup m) (ArgsTtl TtlUndefined options))
  /\ createdTtl (createAccessToken user (setup m) (ArgsTtl TtlNull (Some o)))
     = Some (Z.min (s_ttl (setup m)) (s_maxTTL (setup m)))
  /\ truthyTtl (ofNumber requested) = truthy_num requested.
Proof.
  rewrite createAccessToken_options, !createAccessToken_number.
  split; [| split; [| split; [reflexivity | split; [| split]]]].
  - simpl. f_equal. unfold or_num, truthy_num.
    destruct requested as [n|]; [| reflexivity].
    simpl. destruct (n =? 0); reflexivity.
  - unfold createdTtl, issuedTtl. intros [= Z]. revert Z. apply min_nonzero.
    + apply or_num_nonzero. apply or_num_nonzero. discriminate.
    + apply or_num_nonzero. discriminate.
  - rewrite ?(createAccessToken_number user (setup m) (Some 0) options),
            ?(createAccessToken_number user (setup m) None options).
    reflexivity.
  - reflexivity.
  - destruct requested; reflexivity.
Qed.

(** C10 as stated fails twice.  The string "0" is truthy, so it is honoured,
    and [Math.min] turns it into the number 0: the token store is asked for
    [ttl] 0, through [createAccessToken] and through [login] alike.  And
    [null], a falsy value, passed without options is taken for an options
    object: reading its [ttl] throws, and nothing falls back to the
    default. *)
Lemma C10_counterexample :
  truthyTtl (TtlDecimal 0) = true
  /\ createdTtl (createAccessToken alice defaultSettings
                   (ArgsTtl (TtlDecimal 0) (Some emptyCredentials))) = Some 0
  /\ outcome (run (memHandler toyCompare)
                (login defaultSettings
                   (mkCredentials (Some "alice") None (Some "secret") None
                      (TtlDecimal 0))
                   IncludeUndefined) world0)
     = (None, Some (mkAccessToken "token-0" 0 "u1" None))
  /\ truthyTtl TtlNull = false
  /\ createAccessToken alice defaultSettings (ArgsTtl TtlNull None)
     = Throws nullTtlError
  /\ createdTtl (createAccessToken alice defaultSettings (ArgsTtl TtlNull None))
     <> Some (Z.min (s_ttl defaultSettings) (s_maxTTL defaultSettings)).
Proof. repeat split; try reflexivity. discriminate. Qed.

(** ** The claims about [confirm] and [logout] *)

(** What [confirm] hands to [fn], for any collaborators. *)
Lemma confirm_outcome {W : Type} (h : Handler W) (w : W) (uid token : string)
    (redirect : option string) :
  outcome (run h (confirm uid token redirect) w) =
  match fst (fst (h _ (FindById uid) w)) with
  | Some err => Some err
  | None =>
      match snd (fst (h _ (FindById uid) w)) with
      | Some user =>
          if strictEq (a_verificationToken user) token
          then fst (h _ (Save (confirmed user)) (snd (h _ (FindById uid) w)))
          else Some (invalidToken token)
      | None => Some (userNotFound uid)
      end
  end.
Proof.
  unfold confirm. rewrite run_Vis. simpl outcome.
  destruct (fst (fst (h _ (FindById uid) w))); [reflexivity |].
  destruct (snd (fst (h _ (FindById uid) w))) as [user|]; [| reflexivity].
  destruct (strictEq (a_verificationToken user) token); [| reflexivity].
  rewrite run_Vis. simpl outcome.
  destruct (fst (h _ (Save (confirmed user)) _)); reflexivity.
Qed.

Lemma strictEq_false (v : option string) (token : string) :
  v <> Some token -> strictEq v token = false.
Proof.
  destruct v as [t|]; simpl; [| reflexivity].
  intros N. destruct (String.eqb_spec t token); [subst; now elim N | reflexivity].
Qed.

(** One call of [confirm], for any directory that answers the lookup
    without error: an unknown id gives USER_NOT_FOUND and a stored token
    other than the given one gives INVALID_TOKEN, both without a save; the
    given token makes [confirm] save the account with the token cleared and
    the email verified, and hand on what [save] reports. *)
Lemma confirm_cases {W : Type} (h : Handler W) (w w1 : W) (uid token : string)
    (redirect : option string) (found : option Account) :
  h _ (FindById uid) w = ((None, found), w1) ->
  match found with
  | None =>
      outcome (run h (confirm uid token redirect) w) = Some (userNotFound uid)
      /\ savedAccounts (trace (run h (confirm uid token redirect) w)) = []
  | Some user =>
      (a_verificationToken user <> Some token ->
       outcome (run h (confirm uid token redirect) w) = Some (invalidToken token)
       /\ savedAccounts (trace (run h (confirm uid token redirect) w)) = [])
      /\ (a_verificationToken user = Some token ->
          savedAccounts (trace (run h (confirm uid token redirect) w))
            = [confirmed user]
          /\ outcome (run h (confirm uid token redirect) w)
             = fst (h _ (Save (confirmed user)) w1))
  end.
Proof.
  intros F. unfold confirm. rewrite run_Vis, F. simpl fst. simpl snd. cbv iota.
  destruct found as [user|]; [| split; reflexivity].
  split.
  - intros N. rewrite (strictEq_false _ _ N). split; reflexivity.
  - intros E. rewrite E. simpl strictEq. rewrite String.eqb_refl.
    rewrite run_Vis. simpl.
    destruct (fst (h _ (Save (confirmed user)) w1)); split; reflexivity.
Qed.

(** C7.  Where the code departs from the claim.  [confirm] clears the token
    by assigning [undefined] and leaves the rest to [save].  Against a
    directory that keeps the stored value of a property the instance leaves
    [undefined], the first [confirm] of account "u1" with its token "tok123"
    succeeds and asks to save the account with the token cleared, yet the
    stored account is verified and still holds "tok123"; the second
    [confirm] with the same token succeeds too, where the claim has
    INVALID_TOKEN. *)
Theorem C7_second_confirm_accepted :
  outcome (run (mergingDirectory toyCompare) (confirm "u1" "tok123" None) world0)
    = None
  /\ savedAccounts
       (trace (run (mergingDirectory toyCompare) (confirm "u1" "tok123" None) world0))
     = [confirmed alice]
  /\ a_verificationToken (confirmed alice) = None
  /\ accounts (final (run (mergingDirectory toyCompare)
                        (confirm "u1" "tok123" None) world0)) !! "u1"
     = Some (mkAccount "u1" (Some "alice") (Some "alice@example.com")
               (Some "tenantA") (Some "$2a$secret") true (Some "tok123"))
  /\ outcome (run (mergingDirectory toyCompare) (confirm "u1" "tok123" None)
                (final (run (mergingDirectory toyCompare)
                          (confirm "u1" "tok123" None) world0)))
     = None
  /\ outcome (run (mergingDirectory toyCompare) (confirm "u1" "tok123" None)
                (final (run (mergingDirectory toyCompare)
                          (confirm "u1" "tok123" None) world0)))
     <> Some (invalidToken "tok123").
Proof. repeat split; try reflexivity. discriminate. Qed.

Lemma world0_keyed : keyedById world0.
Proof.
  split; intros k x H.
  - unfold world0 in H. simpl in H.
    apply lookup_singleton_Some in H as [<- <-]. reflexivity.
  - unfold world0 in H. simpl in H. rewrite lookup_empty in H. discriminate.
Defined.


(** C8.  For any collaborators, [logout] hands [fn] the error of the token
    lookup if there is one; otherwise, when no token has that id, the error
    "could not find accessToken"; otherwise it destroys the token found and
    hands [fn] whatever [destroy] reports (its error, or nothing).  Against a
    store that keeps every token under its id, logging out a live token
    succeeds, removes it, and a second [logout] with the same id fails with
    "could not find accessToken". *)
Theorem C8_logout {W : Type} (h : Handler W) (w : W)
    (compare : string -> string -> option JsError * bool) (mw : World)
    (tokenId : string) :
  keyedById mw ->
  match fst (fst (h _ (AccessTokenFindById tokenId) w)) with
  | Some err =>
      outcome (run h (logout tokenId) w) = Some err
      /\ trace (run h (logout tokenId) w) = [existT _ (AccessTokenFindById tokenId)]
  | None =>
      match snd (fst (h _ (AccessTokenFindById tokenId) w)) with
      | None =>
          outcome (run h (logout tokenId) w) = Some tokenNotFound
          /\ trace (run h (logout tokenId) w)
             = [existT _ (AccessTokenFindById tokenId)]
      | Some accessToken =>
          outcome (run h (logout tokenId) w)
            = fst (h _ (AccessTokenDestroy accessToken)
                     (snd (h _ (AccessTokenFindById tokenId) w)))
          /\ trace (run h (logout tokenId) w)
             = [existT _ (AccessTokenFindById tokenId);
                existT _ (AccessTokenDestroy accessToken)]
      end
  end
  /\ match tokens mw !! tokenId with
     | None =>
         outcome (run (memHandler compare) (logout tokenId) mw) = Some tokenNotFound
         /\ final (run (memHandler compare) (logout tokenId) mw) = mw
     | Some accessToken =>
         outcome (run (memHandler compare) (logout tokenId) mw) = None
         /\ tokens (final (run (memHandler compare) (logout tokenId) mw)) !! tokenId
            = None
         /\ (forall k, k <> tokenId ->
               tokens (final (run (memHandler compare) (logout tokenId) mw)) !! k
               = tokens mw !! k)
         /\ outcome (run (memHandler compare) (logout tokenId)
                       (final (run (memHandler compare) (logout tokenId) mw)))
            = Some tokenNotFound
     end
  /\ message tokenNotFound = "could not find accessToken".
Proof.
  intros [_ K]. split; [| split; [| reflexivity]].
  - unfold logout. rewrite run_Vis. simpl outcome. simpl trace.
    destruct (fst (fst (h _ (AccessTokenFindById tokenId) w))).
    { split; reflexivity. }
    destruct (snd (fst (h _ (AccessTokenFindById tokenId) w))) as [tok|].
    + rewrite run_Vis. split; reflexivity.
    + split; reflexivity.
  - destruct (tokens mw !! tokenId) as [tok|] eqn:T.
    + pose proof (K _ _ T) as Id.
      assert (F : final (run (memHandler compare) (logout tokenId) mw)
                  = mkWorld (accounts mw) (delete tokenId (tokens mw))
                            (nextTokenId mw)).
      { unfold logout. rewrite run_Vis. simpl. rewrite T. simpl. now rewrite Id. }
      rewrite F. repeat split.
      * unfold logout. rewrite run_Vis. simpl. now rewrite T.
      * simpl. apply lookup_delete_eq.
      * intros k N. simpl. now apply lookup_delete_ne.
      * unfold logout. rewrite run_Vis. simpl. now rewrite lookup_delete_eq.
    + split.
      * unfold logout. rewrite run_Vis. simpl. now rewrite T.
      * unfold logout. rewrite run_Vis. simpl. rewrite T. now destruct mw.
Qed.

Lemma world1_keyed : keyedById world1.
Proof.
  split; intros k x H; unfold world1 in H; simpl in H;
    apply lookup_singleton_Some in H as [<- <-]; reflexivity.
Defined.

Lemma C8_logout_witness :
  keyedById world1
  /\ outcome (run (memHandler toyCompare) (logout "token-0") world1) = None
  /\ outcome (run (memHandler toyCompare) (logout "token-0")
                (final (run (memHandler toyCompare) (logout "token-0") world1)))
     = Some tokenNotFound
  /\ outcome (run unreachableDirectory (logout "nope") world1) = Some tokenNotFound.
Proof.
  split; [exact world1_keyed |].
  pose proof (C8_logout unreachableDirectory world1 toyCompare world1 "token-0"
                world1_keyed) as H.
  destruct H as (_ & H & _).
  change (tokens world1 !! "token-0") with (Some session) in H.
  cbv iota in H.
  destruct H as (H1 & _ & _ & H2).
  split; [exact H1 | split; [exact H2 | reflexivity]].
Defined.

(** * Further properties of the code *)

(** ** The three ways [login] starts *)

Lemma login_start (settings : Settings) (credentials : Credentials)
    (include : Include) :
  login settings credentials include = Ret (Some err1, None)
  \/ login settings credentials include = Ret (Some err2, None)
  \/ login settings credentials include
     = Vis (FindOne (loginQuery settings credentials))
           (login_findOne_cb settings credentials (normalizeInclude include)
              (loginQuery settings credentials)).
Proof.
  unfold login, loginQuery.
  destruct (realmRequiredOf settings && negb (truthy (q_realm _))); [now left |].
  destruct (negb (truthy (q_email _)) && negb (truthy (q_username _)));
    [right; now left | right; now right].
Qed.

(** The two ways [hasPassword] runs. *)
Lemma hasPassword_run {W : Type} (h : Handler W) (w : W) (user : Account)
    (plain : option string) :
  (truthy (a_password user) && truthy plain = false
   /\ run h (hasPassword user plain) w = mkRun (None, false) w [])
  \/ (exists p hash,
        plain = Some p /\ p <> "" /\ a_password user = Some hash /\ hash <> ""
        /\ run h (hasPassword user plain) w
           = mkRun (match fst (fst (h _ (BcryptCompare p hash) w)) with
                    | Some err => (Some err, false)
                    | None => (None, snd (fst (h _ (BcryptCompare p hash) w)))
                    end)
                   (snd (h _ (BcryptCompare p hash) w))
                   [existT _ (BcryptCompare p hash)]).
Proof.
  unfold hasPassword.
  destruct (truthy (a_password user) && truthy plain) eqn:T; [right | left; now split].
  apply andb_prop in T as [Ta Tp].
  apply truthy_Some in Ta as (hash & Ea & Ha).
  apply truthy_Some in Tp as (p & Ep & Hp).
  exists p, hash. rewrite Ea, Ep. repeat split; try assumption.
  rewrite run_Vis. simpl default.
  destruct (fst (fst (h _ (BcryptCompare p hash) w))); reflexivity.
Qed.

(** ** Who gets a token *)

(** X1.  [login] hands [fn] a token only if the lookup answered without
    error with an account, the password and the stored hash are both
    non-empty, [bcrypt.compare] of exactly these two answered without error
    that they match, the account's email is verified when the settings ask
    for it, and the token store, asked next for a token for that account,
    answered with a token; the token handed out is that answer, with the
    same id, ttl and user id, and with the account attached when [include]
    asks for it. *)
Theorem X1_login_token_only_after_match {W : Type} (h : Handler W) (w : W)
    (settings : Settings) (credentials : Credentials) (include : Include)
    (token : AccessToken) :
  snd (outcome (run h (login settings credentials include) w)) = Some token ->
  exists user plain hash stored,
    fst (h _ (FindOne (loginQuery settings credentials)) w) = (None, Some user)
    /\ c_password credentials = Some plain /\ plain <> ""
    /\ a_password user = Some hash /\ hash <> ""
    /\ fst (h _ (BcryptCompare plain hash)
              (snd (h _ (FindOne (loginQuery settings credentials)) w)))
       = (None, true)
    /\ (s_emailVerificationRequired settings = true -> a_emailVerified user = true)
    /\ In (existT _ (AccessTokensCreate user
                       (Z.min (ttlOr (c_ttl credentials) (s_ttl settings))
                              (s_maxTTL settings))))
          (trace (run h (login settings credentials include) w))
    /\ fst (h _ (AccessTokensCreate user
                    (Z.min (ttlOr (c_ttl credentials) (s_ttl settings))
                           (s_maxTTL settings)))
              (snd (h _ (BcryptCompare plain hash)
                      (snd (h _ (FindOne (loginQuery settings credentials)) w)))))
       = inr stored
    /\ token = mkAccessToken (t_id stored) (t_ttl stored) (t_userId stored)
                 (if includesUser (normalizeInclude include)
                  then Some user else t_data_user stored)
    /\ t_id token = t_id stored /\ t_ttl token = t_ttl stored
    /\ t_userId token = t_userId stored
    /\ fst (outcome (run h (login settings credentials include) w)) = None.
Proof.
  destruct (login_start settings credentials include) as [-> | [-> | ->]];
    [discriminate | discriminate |].
  rewrite run_Vis.
  destruct (h _ (FindOne (loginQuery settings credentials)) w)
    as [[[e|] [user|]] w1] eqn:F; simpl fst; simpl snd;
    try (unfold login_findOne_cb; simpl; discriminate).
  rewrite login_cb_found. cbv zeta.
  destruct (hasPassword_run h w1 user (c_password credentials))
    as [[_ ->] | (p & hash & Ep & Hp & Ea & Ha & ->)];
    [simpl; discriminate |].
  simpl outcome. simpl final. simpl trace.
  destruct (h _ (BcryptCompare p hash) w1) as [[[e|] m] w2] eqn:B;
    simpl fst; simpl snd; [simpl; discriminate |].
  destruct m; [| simpl; discriminate].
  destruct (s_emailVerificationRequired settings && negb (a_emailVerified user)) eqn:V;
    [simpl; discriminate |].
  rewrite run_Vis. simpl outcome.
  destruct (h _ (AccessTokensCreate user _) w2) as [[e | stored] w3] eqn:C;
    simpl fst; simpl snd; [simpl; discriminate |].
  intros T. exists user, p, hash, stored. rewrite B. simpl snd. rewrite C.
  repeat split; try assumption; try reflexivity.
  - intros R. rewrite R in V. simpl in V. now destruct (a_emailVerified user).
  - simpl. right. right. left. reflexivity.
  - unfold tokenHandler, set_data_user in T. destruct (includesUser _); simpl in T;
      injection T as <-; destruct stored; reflexivity.
  - unfold tokenHandler in T. destruct (includesUser _); simpl in T;
      injection T as <-; reflexivity.
  - unfold tokenHandler in T. destruct (includesUser _); simpl in T;
      injection T as <-; reflexivity.
  - unfold tokenHandler in T. destruct (includesUser _); simpl in T;
      injection T as <-; reflexivity.
  - unfold tokenHandler. destruct (includesUser _); reflexivity.
Qed.

Lemma X1_login_token_only_after_match_witness :
  snd (outcome (run (memHandler toyCompare)
                  (login defaultSettings (byUsername "alice" "secret") IncludeUndefined)
                  world0))
    = Some session
  /\ exists user,
       fst (memHandler toyCompare _
              (FindOne (loginQuery defaultSettings (byUsername "alice" "secret")))
              world0) = (None, Some user)
       /\ a_password user = Some "$2a$secret".
Proof.
  split; [reflexivity |].
  destruct (X1_login_token_only_after_match (memHandler toyCompare) world0
              defaultSettings (byUsername "alice" "secret") IncludeUndefined
              session eq_refl)
    as (user & plain & hash & stored & F & _ & _ & A & _).
  exists user. split; [exact F |].
  injection F as <-. reflexivity.
Defined.

(** The run of a [login] whose lookup, password check and verification rule
    all pass, up to the answer of the token store. *)
Lemma login_verified_run {W : Type} (h : Handler W) (w w1 : W)
    (settings : Settings) (credentials : Credentials) (include : Include)
    (query : Query) (user : Account) :
  lookupOf (login settings credentials include) = Some query ->
  h _ (FindOne query) w = ((None, Some user), w1) ->
  outcome (run h (hasPassword user (c_password credentials)) w1) = (None, true) ->
  s_emailVerificationRequired settings && negb (a_emailVerified user) = false ->
  outcome (run h (login settings credentials include) w)
  = tokenHandler (normalizeInclude include) user
      (fst (h _ (AccessTokensCreate user
                   (Z.min (ttlOr (c_ttl credentials) (s_ttl settings))
                          (s_maxTTL settings)))
              (final (run h (hasPassword user (c_password credentials)) w1)))).
Proof.
  intros L F P V. apply login_reaches_lookup in L as [_ ->].
  rewrite run_Vis, F. simpl fst. simpl snd.
  rewrite login_cb_found. cbv zeta. rewrite P. simpl fst. simpl snd. cbv iota.
  rewrite V. rewrite run_Vis. reflexivity.
Qed.

(** The run of a [login] that finds an unverified account although
    verification is required. *)
Lemma login_unverified_run {W : Type} (h : Handler W) (w w1 : W)
    (settings : Settings) (credentials : Credentials) (include : Include)
    (query : Query) (user : Account) :
  lookupOf (login settings credentials include) = Some query ->
  h _ (FindOne query) w = ((None, Some user), w1) ->
  outcome (run h (hasPassword user (c_password credentials)) w1) = (None, true) ->
  s_emailVerificationRequired settings && negb (a_emailVerified user) = true ->
  outcome (run h (login settings credentials include) w) = (Some errNotVerified, None).
Proof.
  intros L F P V. apply login_reaches_lookup in L as [_ ->].
  rewrite run_Vis, F. simpl fst. simpl snd.
  rewrite login_cb_found. cbv zeta. rewrite P. simpl fst. simpl snd. cbv iota.
  rewrite V. reflexivity.
Qed.

(** X2.  When the lookup finds an account, the password check reports a
    match, the verification rule does not object and the token store
    returns a token, [login] hands [fn] that token and no error.  The
    account is attached as [__data.user] exactly when [include], lower-cased,
    is the string "user" or an array containing it; id, ttl and user id of
    the token are never touched. *)
Theorem X2_login_success {W : Type} (h : Handler W) (w w1 w3 : W)
    (settings : Settings) (credentials : Credentials) (include : Include)
    (query : Query) (user : Account) (stored : AccessToken) :
  lookupOf (login settings credentials include) = Some query ->
  h _ (FindOne query) w = ((None, Some user), w1) ->
  outcome (run h (hasPassword user (c_password credentials)) w1) = (None, true) ->
  s_emailVerificationRequired settings && negb (a_emailVerified user) = false ->
  h _ (AccessTokensCreate user
         (Z.min (ttlOr (c_ttl credentials) (s_ttl settings)) (s_maxTTL settings)))
      (final (run h (hasPassword user (c_password credentials)) w1))
    = (inr stored, w3) ->
  outcome (run h (login settings credentials include) w)
    = (None,
       Some (mkAccessToken (t_id stored) (t_ttl stored) (t_userId stored)
               (if includesUser (normalizeInclude include)
                then Some user else t_data_user stored)))
  /\ final (run h (login settings credentials include) w) = w3.
Proof.
  intros L F P V C. apply login_reaches_lookup in L as [_ ->].
  rewrite run_Vis, F. simpl fst. simpl snd.
  rewrite login_cb_found. cbv zeta. rewrite P. simpl fst. simpl snd. cbv iota.
  rewrite V. rewrite run_Vis, C.
  simpl. unfold set_data_user.
  destruct (includesUser (normalizeInclude include)); destruct stored; split; reflexivity.
Qed.

Lemma X2_login_success_witness :
  outcome (run (memHandler toyCompare)
             (login defaultSettings (byUsername "alice" "secret")
                (IncludeArray ["Roles"; "USER"])) world0)
  = (None, Some (mkAccessToken "token-0" 1209600 "u1" (Some alice))).
Proof.
  apply (X2_login_success (memHandler toyCompare) world0 world0 world1
           defaultSettings (byUsername "alice" "secret")
           (IncludeArray ["Roles"; "USER"])
           (mkQuery None (Some "alice") None) alice session
           eq_refl eq_refl eq_refl eq_refl eq_refl).
Defined.

(** X3.  An error of the token store is not collapsed: when everything up
    to the creation of the token went well and [accessTokens.create]
    reports an error, [login] hands [fn] that very error and no token. *)
Theorem X3_login_create_error_passed_on {W : Type} (h : Handler W) (w w1 w3 : W)
    (settings : Settings) (credentials : Credentials) (include : Include)
    (query : Query) (user : Account) (err : JsError) :
  lookupOf (login settings credentials include) = Some query ->
  h _ (FindOne query) w = ((None, Some user), w1) ->
  outcome (run h (hasPassword user (c_password credentials)) w1) = (None, true) ->
  s_emailVerificationRequired settings && negb (a_emailVerified user) = false ->
  h _ (AccessTokensCreate user
         (Z.min (ttlOr (c_ttl credentials) (s_ttl settings)) (s_maxTTL settings)))
      (final (run h (hasPassword user (c_password credentials)) w1))
    = (inl err, w3) ->
  outcome (run h (login settings credentials include) w) = (Some err, None).
Proof.
  intros L F P V C. apply login_reaches_lookup in L as [_ ->].
  rewrite run_Vis, F. simpl fst. simpl snd.
  rewrite login_cb_found. cbv zeta. rewrite P. simpl fst. simpl snd. cbv iota.
  rewrite V. rewrite run_Vis, C.
  reflexivity.
Qed.

(** X4.  Whatever the collaborators answer, the calls [login] makes to
    them, logging aside, are one lookup, then at most one
    [bcrypt.compare], then at most one token creation: it never saves an
    account, never looks one up by id, never looks up or destroys a token,
    and never repeats a call. *)
Theorem X4_login_call_shape {W : Type} (h : Handler W) (w : W)
    (settings : Settings) (credentials : Credentials) (include : Include) :
  loginCallShape
    (externalCalls (trace (run h (login settings credentials include) w))) = true.
Proof.
  destruct (login_start settings credentials include) as [-> | [-> | ->]];
    [reflexivity | reflexivity |].
  rewrite run_Vis.
  destruct (h _ (FindOne (loginQuery settings credentials)) w)
    as [[[e|] [user|]] w1]; simpl fst; simpl snd;
    try (unfold login_findOne_cb; simpl; reflexivity).
  rewrite login_cb_found. cbv zeta.
  destruct (hasPassword_run h w1 user (c_password credentials))
    as [[_ ->] | (p & hash & _ & _ & _ & _ & ->)]; [reflexivity |].
  simpl outcome. simpl final. simpl trace.
  destruct (h _ (BcryptCompare p hash) w1) as [[[e|] m] w2];
    simpl fst; simpl snd; [reflexivity |].
  destruct m; [| reflexivity].
  destruct (s_emailVerificationRequired settings && negb (a_emailVerified user));
    [reflexivity |].
  rewrite run_Vis. reflexivity.
Qed.

Lemma X3_login_create_error_passed_on_witness :
  outcome (run refusingTokenStore
             (login defaultSettings (byUsername "alice" "secret") IncludeUndefined)
             world0)
  = (Some ioError, None).
Proof.
  apply (X3_login_create_error_passed_on refusingTokenStore world0 world0 world0
           defaultSettings (byUsername "alice" "secret") IncludeUndefined
           (mkQuery None (Some "alice") None) alice ioError
           eq_refl eq_refl eq_refl eq_refl eq_refl).
Defined.

(** ** The shape of the normalised query *)

Lemma normalizeCredentials_shape (credentials : option Credentials) (realmRequired : bool)
    (realmDelimiter : option string) :
  (q_email (normalizeCredentials credentials realmRequired realmDelimiter) = None
   \/ q_username (normalizeCredentials credentials realmRequired realmDelimiter) = None)
  /\ (q_email (normalizeCredentials credentials realmRequired realmDelimiter) <> None
      <-> truthy (c_email (default emptyCredentials credentials)) = true)
  /\ (q_username (normalizeCredentials credentials realmRequired realmDelimiter) <> None
      <-> truthy (c_email (default emptyCredentials credentials)) = false
          /\ truthy (c_username (default emptyCredentials credentials)) = true)
  /\ truthy (q_realm (normalizeCredentials credentials realmRequired realmDelimiter))
     = match q_realm (normalizeCredentials credentials realmRequired realmDelimiter) with
       | Some _ => true
       | None => false
       end
  /\ (realmRequired = false ->
      truthy (q_email (normalizeCredentials credentials realmRequired realmDelimiter))
      = truthy (c_email (default emptyCredentials credentials))
      /\ truthy (q_username (normalizeCredentials credentials realmRequired realmDelimiter))
         = negb (truthy (c_email (default emptyCredentials credentials)))
           && truthy (c_username (default emptyCredentials credentials))).
Proof.
  unfold normalizeCredentials.
  generalize (default emptyCredentials credentials). intros c.
  destruct realmRequired; simpl negb; cbv iota.
  - destruct (truthy (c_realm c)) eqn:Tr;
      destruct (truthy (c_email c)) eqn:Te;
      [destruct (truthy (fst (splitPrincipal (default "" (c_email c)) realmDelimiter)))
         eqn:Tp
      | destruct (truthy (c_username c)) eqn:Tu;
        [destruct (truthy (fst (splitPrincipal (default "" (c_username c))
                                  realmDelimiter))) eqn:Tp |]
      | destruct (truthy (fst (splitPrincipal (default "" (c_email c)) realmDelimiter)))
         eqn:Tp
      | destruct (truthy (c_username c)) eqn:Tu;
        [destruct (truthy (fst (splitPrincipal (default "" (c_username c))
                                  realmDelimiter))) eqn:Tp |]];
      simpl;
      repeat split; try discriminate; try tauto; try congruence; auto;
      try (intros []; discriminate);
      try (rewrite Tp; apply truthy_Some in Tp as (x & -> & _); reflexivity);
      try (rewrite Tr; apply truthy_Some in Tr as (x & -> & _); reflexivity).
  - destruct (truthy (c_email c)) eqn:Te; [| destruct (truthy (c_username c)) eqn:Tu];
      simpl; repeat split; try discriminate; try tauto; try congruence; auto;
      try (intros []; discriminate).
    + apply truthy_Some in Te as (x & -> & Hx). now apply truthy_nonempty.
    + apply truthy_Some in Tu as (x & -> & Hx). now apply truthy_nonempty.
Qed.

(** X5.  Whatever the credentials, the normalised query never holds both an
    email and a username; it holds an email exactly when the credentials
    have a non-empty one, and a username exactly when they have a non-empty
    username and no non-empty email; its realm is never the empty string;
    and without [realmRequired] no principal in it is the empty string. *)
Theorem X5_query_shape (credentials : option Credentials) (realmRequired : bool)
    (realmDelimiter : option string) :
  (q_email (normalizeCredentials credentials realmRequired realmDelimiter) = None
   \/ q_username (normalizeCredentials credentials realmRequired realmDelimiter) = None)
  /\ (q_email (normalizeCredentials credentials realmRequired realmDelimiter) <> None
      <-> truthy (c_email (default emptyCredentials credentials)) = true)
  /\ (q_username (normalizeCredentials credentials realmRequired realmDelimiter) <> None
      <-> truthy (c_email (default emptyCredentials credentials)) = false
          /\ truthy (c_username (default emptyCredentials credentials)) = true)
  /\ q_realm (normalizeCredentials credentials realmRequired realmDelimiter) <> Some ""
  /\ q_email (normalizeCredentials credentials false realmDelimiter) <> Some ""
  /\ q_username (normalizeCredentials credentials false realmDelimiter) <> Some "".
Proof.
  destruct (normalizeCredentials_shape credentials realmRequired realmDelimiter)
    as (A & B & C & D & _).
  destruct (normalizeCredentials_shape credentials false realmDelimiter)
    as (_ & B' & C' & _ & E).
  destruct (E eq_refl) as [E1 E2].
  split; [exact A |]. split; [exact B |]. split; [exact C |].
  split; [| split].
  - intros R. rewrite R in D. discriminate.
  - intros R.
    assert (T : truthy (c_email (default emptyCredentials credentials)) = true)
      by (apply B'; rewrite R; discriminate).
    rewrite R, T in E1. discriminate.
  - intros R.
    assert (T : truthy (c_email (default emptyCredentials credentials)) = false
                /\ truthy (c_username (default emptyCredentials credentials)) = true)
      by (apply C'; rewrite R; discriminate).
    destruct T as [T1 T2]. rewrite R, T1, T2 in E2. discriminate.
Qed.

(** ** Cutting and joining principals *)

Lemma length_append (a b : string) :
  String.length (a ++ b) = (String.length a + String.length b)%nat.
Proof. induction a as [|c a IH]; simpl; [reflexivity | now rewrite IH]. Qed.

Lemma append_nil_r (a : string) : a ++ "" = a.
Proof.
  induction a as [|c a IH]; [reflexivity |].
  change (String c a ++ "") with (String c (a ++ "")). now rewrite IH.
Qed.

Lemma substring_app_l (a b : string) :
  forall k m, (k + m <= String.length a)%nat ->
              substring k m (a ++ b) = substring k m a.
Proof.
  induction a as [|c a IH]; intros k m H; simpl in H.
  - assert (k = 0%nat) by lia. assert (m = 0%nat) by lia. subst.
    simpl. destruct b; reflexivity.
  - destruct k as [|k].
    + destruct m as [|m]; simpl; [reflexivity |].
      rewrite (IH 0%nat m) by lia. reflexivity.
    + change (substring (S k) m (String c a ++ b)) with (substring k m (a ++ b)).
      change (substring (S k) m (String c a)) with (substring k m a).
      apply IH. lia.
Qed.

(** A string that has no occurrence of [d] before the end of [before ++ d]
    has none inside [before]. *)
Lemma no_occurrence_inside (before d rest : string) :
  d <> "" ->
  (forall p : nat, (p < String.length before)%nat ->
                   substring p (String.length d) (before ++ rest) <> d) ->
  forall k : nat, substring k (String.length d) before <> d.
Proof.
  intros Hd F k E.
  assert (P : (0 < String.length d)%nat) by (destruct d; [contradiction | simpl; lia]).
  assert (L : String.length d = Nat.min (String.length d) (String.length before - k)).
  { rewrite <- substring_length. now rewrite E. }
  apply (F k); [lia |].
  rewrite substring_app_l by lia. exact E.
Qed.

(** X6.  When [splitPrincipal] returns only a principal, that is the
    string it was given.  When it returns a realm part too, the delimiter is
    configured and non-empty, the string is realm part, delimiter and
    principal in this order (so the lengths add up), and the realm part
    contains no occurrence of the delimiter; the principal may. *)
Theorem X6_splitPrincipal_parts (name : string) (realmDelimiter : option string) :
  match fst (splitPrincipal name realmDelimiter) with
  | None => snd (splitPrincipal name realmDelimiter) = name
  | Some r =>
      exists d,
        realmDelimiter = Some d /\ d <> ""
        /\ name = r ++ d ++ snd (splitPrincipal name realmDelimiter)
        /\ String.length name
           = (String.length r + String.length d
              + String.length (snd (splitPrincipal name realmDelimiter)))%nat
        /\ forall k : nat, substring k (String.length d) r <> d
  end.
Proof.
  pose proof (splitPrincipal_spec name realmDelimiter) as S.
  destruct (splitPrincipal name realmDelimiter) as [[r|] p]; simpl in *.
  - inversion S as [ | | d before after E Hd N F]; subst.
    exists d. repeat split; try assumption; try reflexivity.
    + rewrite !length_append. lia.
    + now apply (no_occurrence_inside r d (d ++ p)).
  - inversion S; reflexivity.
Qed.

Lemma splitPrincipal_join (realm d name : string) :
  d <> "" ->
  (forall p : nat, (p < String.length realm)%nat ->
                   substring p (String.length d) (realm ++ d ++ name) <> d) ->
  splitPrincipal (realm ++ d ++ name) (Some d) = (Some realm, name).
Proof.
  intros Hd F.
  pose proof (splitPrincipal_spec (realm ++ d ++ name) (Some d)) as S.
  pose proof (Split_first (realm ++ d ++ name) (Some d) d realm name
                eq_refl Hd eq_refl F) as S'.
  destruct (SplitSpec_functional _ _ _ _ _ _ S S') as [E1 E2].
  destruct (splitPrincipal (realm ++ d ++ name) (Some d)) as [r p].
  simpl in *. now subst.
Qed.

(** X7.  Joining a realm, the delimiter and a name and splitting again gives
    the realm and the name back, provided the delimiter is non-empty and
    does not occur in the joined string before the place it was put. *)
Theorem X7_join_then_split (realm d name : string) :
  d <> "" ->
  (forall p : nat, (p < String.length realm)%nat ->
                   substring p (String.length d) (realm ++ d ++ name) <> d) ->
  splitPrincipal (realm ++ d ++ name) (Some d) = (Some realm, name).
Proof. apply splitPrincipal_join. Qed.

Lemma X7_join_then_split_witness :
  splitPrincipal ("tenantA" ++ "::" ++ "alice::admin") (Some "::")
  = (Some "tenantA", "alice::admin").
Proof.
  apply X7_join_then_split; [discriminate |].
  intros p Hp.
  do 7 (destruct p as [|p]; [discriminate |]).
  simpl in Hp. lia.
Defined.

(** X8.  When a realm is required and the supplied principal is a non-empty
    realm followed by the delimiter and nothing else, the principal left
    after the split is empty, and [login] answers USERNAME_EMAIL_REQUIRED
    without calling any collaborator, although a username or email was
    supplied. *)
Theorem X8_login_realm_without_name (settings : Settings)
    (credentials : Credentials) (include : Include) (realm d : string) :
  s_realmDelimiter settings = Some d -> d <> "" -> realm <> "" ->
  (forall p : nat, (p < String.length realm)%nat ->
                   substring p (String.length d) (realm ++ d) <> d) ->
  (c_email credentials = Some (realm ++ d)
   \/ truthy (c_email credentials) = false
      /\ c_username credentials = Some (realm ++ d)) ->
  q_realm (loginQuery settings credentials) = Some realm
  /\ login settings credentials include = Ret (Some err2, None).
Proof.
  intros D Hd Hr F P.
  assert (R : realmRequiredOf settings = true).
  { unfold realmRequiredOf. rewrite D, (truthy_nonempty d Hd). apply orb_true_r. }
  assert (N : realm ++ d <> "").
  { intros E. apply (f_equal String.length) in E. rewrite length_append in E.
    destruct d; [contradiction | simpl in E; lia]. }
  assert (S : splitPrincipal (realm ++ d) (Some d) = (Some realm, "")).
  { pose proof (splitPrincipal_join realm d "" Hd) as A. rewrite !append_nil_r in A.
    apply A. exact F. }
  assert (Tr : negb (String.eqb realm "") = true) by exact (truthy_nonempty realm Hr).
  assert (Q : loginQuery settings credentials = mkQuery None (Some "") (Some realm)
              \/ loginQuery settings credentials = mkQuery (Some "") None (Some realm)).
  { unfold loginQuery, normalizeCredentials. rewrite R, D. simpl default.
    simpl negb. cbv iota.
    destruct P as [E | [Te E]].
    - right. rewrite E, (truthy_nonempty _ N). simpl default. rewrite S.
      simpl. rewrite Tr.
      destruct (truthy (c_realm credentials)); reflexivity.
    - left. rewrite Te, E, (truthy_nonempty _ N). simpl default. rewrite S.
      simpl. rewrite Tr.
      destruct (truthy (c_realm credentials)); reflexivity. }
  unfold login. fold (loginQuery settings credentials).
  unfold loginQuery in *. rewrite R in *.
  destruct Q as [-> | ->]; simpl; rewrite Tr; split; reflexivity.
Qed.

Lemma X8_login_realm_without_name_witness :
  q_realm (loginQuery realmSettings (byUsername "tenantA/" "secret")) = Some "tenantA"
  /\ login realmSettings (byUsername "tenantA/" "secret") IncludeUndefined
     = Ret (Some err2, None).
Proof.
  apply (X8_login_realm_without_name realmSettings (byUsername "tenantA/" "secret")
           IncludeUndefined "tenantA" "/" eq_refl).
  - discriminate.
  - discriminate.
  - intros p Hp. do 7 (destruct p as [|p]; [discriminate |]). simpl in Hp. lia.
  - right. split; reflexivity.
Defined.

(** ** [hasPassword] reports what [bcrypt.compare] said *)

(** X9.  [hasPassword] reports a match only when both the plaintext and the
    stored hash are non-empty and [bcrypt.compare], called with the
    plaintext first and the hash second, answered without error that they
    match.  An error it reports is the one [bcrypt.compare] gave, and comes
    with no match.  It calls [bcrypt.compare] at most once and nothing
    else. *)
Theorem X9_hasPassword_sound {W : Type} (h : Handler W) (w : W) (user : Account)
    (plain : option string) :
  (snd (outcome (run h (hasPassword user plain) w)) = true ->
   exists p hash,
     plain = Some p /\ p <> "" /\ a_password user = Some hash /\ hash <> ""
     /\ fst (h _ (BcryptCompare p hash) w) = (None, true))
  /\ (forall e, fst (outcome (run h (hasPassword user plain) w)) = Some e ->
        snd (outcome (run h (hasPassword user plain) w)) = false
        /\ exists p hash,
             plain = Some p /\ a_password user = Some hash
             /\ fst (fst (h _ (BcryptCompare p hash) w)) = Some e)
  /\ (length (trace (run h (hasPassword user plain) w)) <= 1)%nat
  /\ forallb isBcryptCompare (trace (run h (hasPassword user plain) w)) = true.
Proof.
  destruct (hasPassword_run h w user plain)
    as [[_ ->] | (p & hash & Ep & Hp & Ea & Ha & ->)].
  - simpl. split; [discriminate |]. split; [discriminate |]. split; [lia | reflexivity].
  - simpl outcome. simpl trace.
    destruct (h _ (BcryptCompare p hash) w) as [[[e|] m] w2] eqn:B; simpl.
    + split; [discriminate |]. split; [| split; [lia | reflexivity]].
      intros e' [= <-]. split; [reflexivity |].
      exists p, hash. rewrite B. repeat split; first [assumption | reflexivity].
    + split; [| split; [discriminate | split; [lia | reflexivity]]].
      intros ->. exists p, hash. rewrite B.
      repeat split; first [assumption | reflexivity].
Qed.

(** ** [confirm] against any directory *)

Lemma strictEq_true (v : option string) (token : string) :
  strictEq v token = true -> v = Some token.
Proof.
  destruct v as [s|]; simpl; [| discriminate].
  intros E. apply String.eqb_eq in E. now subst.
Qed.

(** X10.  Whatever the directory answers, [confirm] asks it to save at most
    one account, and only the account the lookup returned without error
    whose [verificationToken] is the given token, changed in two fields
    only: [emailVerified] set and [verificationToken] cleared.  It calls
    nothing but [findById] and [save].  A lookup error is handed to [fn] as
    it is and nothing is saved; after a save, [fn] gets exactly what [save]
    reported. *)
Theorem X10_confirm_saves_only_verified {W : Type} (h : Handler W) (w : W)
    (uid token : string) (redirect : option string) :
  Forall (fun a =>
            a_emailVerified a = true /\ a_verificationToken a = None
            /\ exists user,
                 fst (h _ (FindById uid) w) = (None, Some user)
                 /\ a_verificationToken user = Some token
                 /\ a_id a = a_id user /\ a_username a = a_username user
                 /\ a_email a = a_email user /\ a_realm a = a_realm user
                 /\ a_password a = a_password user)
         (savedAccounts (trace (run h (confirm uid token redirect) w)))
  /\ (length (savedAccounts (trace (run h (confirm uid token redirect) w))) <= 1)%nat
  /\ forallb isConfirmCall (trace (run h (confirm uid token redirect) w)) = true
  /\ (forall e, fst (fst (h _ (FindById uid) w)) = Some e ->
        outcome (run h (confirm uid token redirect) w) = Some e
        /\ savedAccounts (trace (run h (confirm uid token redirect) w)) = [])
  /\ (forall a, savedAccounts (trace (run h (confirm uid token redirect) w)) = [a] ->
        outcome (run h (confirm uid token redirect) w)
        = fst (h _ (Save a) (snd (h _ (FindById uid) w)))).
Proof.
  unfold confirm. rewrite run_Vis.
  destruct (h _ (FindById uid) w) as [[[e|] [user|]] w1]; simpl fst; simpl snd;
    cbv iota.
  1, 2: simpl; split; [constructor |]; split; [lia |]; split; [reflexivity |];
    split; [intros e' [= <-]; split; reflexivity | discriminate].
  2: simpl; split; [constructor |]; split; [lia |]; split; [reflexivity |];
    split; discriminate.
  destruct (strictEq (a_verificationToken user) token) eqn:T.
  - apply strictEq_true in T. rewrite run_Vis. simpl trace. simpl outcome.
    assert (O : outcome (run h (match fst (h _ (Save (confirmed user)) w1) with
                                | Some e => Ret (Some e)
                                | None => Ret None
                                end) (snd (h _ (Save (confirmed user)) w1)))
                = fst (h _ (Save (confirmed user)) w1)).
    { destruct (fst (h _ (Save (confirmed user)) w1)); reflexivity. }
    assert (Tr : trace (run h (match fst (h _ (Save (confirmed user)) w1) with
                               | Some e => Ret (Some e)
                               | None => Ret None
                               end) (snd (h _ (Save (confirmed user)) w1))) = []).
    { destruct (fst (h _ (Save (confirmed user)) w1)); reflexivity. }
    rewrite O, Tr. simpl.
    split; [| split; [lia | split; [reflexivity | split; [discriminate |]]]].
    + constructor; [| constructor].
      split; [reflexivity |]. split; [reflexivity |].
      exists user. repeat split; assumption.
    + intros a [= <-]. reflexivity.
  - simpl. split; [constructor |]. split; [lia |]. split; [reflexivity |].
    split; discriminate.
Qed.

(** ** [confirm] and [login] together *)

Lemma mem_findOne_unique (m : gmap string Account) (q : Query) (uid : string)
    (a : Account) :
  m !! uid = Some a ->
  matchesWhere q a = true ->
  (forall k a', m !! k = Some a' -> matchesWhere q a' = true -> k = uid) ->
  List.find (matchesWhere q) (map snd (map_to_list m)) = Some a.
Proof.
  intros A M U.
  destruct (List.find (matchesWhere q) (map snd (map_to_list m))) as [x|] eqn:E.
  - apply find_some in E as [I Mx].
    apply in_map_iff in I as ([k a'] & <- & I). simpl in *.
    apply list_elem_of_In, elem_of_map_to_list in I.
    pose proof (U k a' I Mx) as ->. congruence.
  - exfalso. pose proof (find_none _ _ E a) as N.
    rewrite M in N. enough (In a (map snd (map_to_list m))) by (specialize (N H); discriminate).
    apply in_map_iff. exists (uid, a). split; [reflexivity |].
    apply list_elem_of_In, elem_of_map_to_list. exact A.
Qed.

Lemma mem_hasPassword_match (compare : string -> string -> option JsError * bool)
    (w : World) (user : Account) (plain hash : string) :
  plain <> "" -> a_password user = Some hash -> hash <> "" ->
  compare plain hash = (None, true) ->
  run (memHandler compare) (hasPassword user (Some plain)) w
  = mkRun (None, true) w [existT _ (BcryptCompare plain hash)].
Proof.
  intros Hp Ea Ha C. unfold hasPassword.
  rewrite Ea, (truthy_nonempty _ Hp), (truthy_nonempty _ Ha). simpl.
  rewrite C. reflexivity.
Qed.

Lemma mem_confirm_final (compare : string -> string -> option JsError * bool)
    (w : World) (uid token : string) (redirect : option string) (user : Account) :
  keyedById w -> accounts w !! uid = Some user ->
  a_verificationToken user = Some token ->
  final (run (memHandler compare) (confirm uid token redirect) w)
  = mkWorld (<[uid := confirmed user]> (accounts w)) (tokens w) (nextTokenId w).
Proof.
  intros [K _] A T. unfold confirm. rewrite run_Vis. simpl. rewrite A. simpl.
  rewrite T. simpl. rewrite String.eqb_refl. simpl. now rewrite (K _ _ A).
Qed.

(** X11.  Against a directory that stores every account under its id, take
    an unverified account that alone matches the login query, whose
    [verificationToken] is known and whose password compares as a match.
    With [emailVerificationRequired], [login] is refused with
    LOGIN_FAILED_EMAIL_NOT_VERIFIED; after [confirm] with the account's id
    and token, the same [login] yields a token for that account, with the
    [ttl] of [createAccessToken]. *)
Theorem X11_confirm_unlocks_login
    (compare : string -> string -> option JsError * bool) (w : World)
    (settings : Settings) (credentials : Credentials) (include : Include)
    (query : Query) (uid token : string) (redirect : option string)
    (user : Account) (plain hash : string) :
  keyedById w ->
  accounts w !! uid = Some user ->
  a_verificationToken user = Some token ->
  a_emailVerified user = false ->
  s_emailVerificationRequired settings = true ->
  lookupOf (login settings credentials include) = Some query ->
  matchesWhere query user = true ->
  (forall k a, accounts w !! k = Some a -> matchesWhere query a = true -> k = uid) ->
  c_password credentials = Some plain -> plain <> "" ->
  a_password user = Some hash -> hash <> "" ->
  compare plain hash = (None, true) ->
  outcome (run (memHandler compare) (login settings credentials include) w)
    = (Some errNotVerified, None)
  /\ outcome (run (memHandler compare) (confirm uid token redirect) w) = None
  /\ exists tok,
       outcome (run (memHandler compare) (login settings credentials include)
                  (final (run (memHandler compare) (confirm uid token redirect) w)))
         = (None, Some tok)
       /\ t_userId tok = uid
       /\ t_ttl tok = Z.min (ttlOr (c_ttl credentials) (s_ttl settings))
                            (s_maxTTL settings).
Proof.
  intros K A T V R L M U Ep Hp Ea Ha C.
  split; [| split].
  - apply (login_unverified_run (memHandler compare) w w settings credentials
             include query user L).
    + simpl. now rewrite (mem_findOne_unique _ _ _ _ A M U).
    + rewrite Ep, (mem_hasPassword_match compare w user plain hash Hp Ea Ha C).
      reflexivity.
    + now rewrite R, V.
  - rewrite confirm_outcome. simpl. rewrite A. simpl. rewrite T. simpl.
    now rewrite String.eqb_refl.
  - rewrite (mem_confirm_final compare w uid token redirect user K A T).
    set (w' := mkWorld (<[uid := confirmed user]> (accounts w)) (tokens w)
                       (nextTokenId w)).
    assert (F : memHandler compare _ (FindOne query) w'
                = ((None, Some (confirmed user)), w')).
    { simpl. rewrite (mem_findOne_unique _ query uid (confirmed user));
        [reflexivity | apply lookup_insert_eq | exact M |].
      intros k a' Ak Mk. destruct (decide (k = uid)) as [-> | N]; [reflexivity |].
      rewrite lookup_insert_ne in Ak by congruence. exact (U k a' Ak Mk). }
    assert (P : run (memHandler compare)
                  (hasPassword (confirmed user) (c_password credentials)) w'
                = mkRun (None, true) w' [existT _ (BcryptCompare plain hash)]).
    { rewrite Ep. now apply mem_hasPassword_match. }
    rewrite (login_verified_run (memHandler compare) w' w' settings credentials
               include query (confirmed user) L F);
      [| now rewrite P | simpl; apply andb_false_r].
    rewrite P. simpl.
    destruct K as [K _]. rewrite (K _ _ A).
    unfold tokenHandler.
    destruct (includesUser (normalizeInclude include)); eexists; repeat split.
Qed.

Lemma X11_confirm_unlocks_login_witness :
  outcome (run (memHandler toyCompare)
             (login verifyingSettings (byUsername "alice" "secret") IncludeUndefined)
             world0) = (Some errNotVerified, None)
  /\ exists tok,
       outcome (run (memHandler toyCompare)
                  (login verifyingSettings (byUsername "alice" "secret")
                     IncludeUndefined)
                  (final (run (memHandler toyCompare) (confirm "u1" "tok123" None)
                            world0)))
         = (None, Some tok)
       /\ t_userId tok = "u1".
Proof.
  assert (U : forall k a, accounts world0 !! k = Some a ->
                matchesWhere (mkQuery None (Some "alice") None) a = true -> k = "u1").
  { intros k a H _. unfold world0 in H. simpl in H.
    apply lookup_singleton_Some in H as [<- _]. reflexivity. }
  destruct (X11_confirm_unlocks_login toyCompare world0 verifyingSettings
              (byUsername "alice" "secret") IncludeUndefined
              (mkQuery None (Some "alice") None) "u1" "tok123" None alice
              "secret" "$2a$secret"
              world0_keyed eq_refl eq_refl eq_refl eq_refl eq_refl eq_refl U
              eq_refl ltac:(discriminate) eq_refl ltac:(discriminate) eq_refl)
    as (H1 & _ & tok & H2 & H3 & _).
  split; [exact H1 |]. exists tok. split; assumption.
Defined.

(** ** [validatePassword] *)

(** X12.  [validatePassword] returns [true] exactly for non-empty strings
    and never returns anything else: every other value (the empty string,
    [undefined], [null], a boolean) makes it throw an error with status 422,
    no code, and the value in its message.  For an account with a stored
    hash, the strings it rejects are exactly those for which [hasPassword]
    answers "no match" without consulting [bcrypt.compare]. *)
Theorem X12_validatePassword (plain : JsValue) (s : string) (user : Account) :
  (validatePassword plain = inr true <-> exists t, plain = JsString t /\ t <> "")
  /\ validatePassword plain <> inr false
  /\ (forall e, validatePassword plain = inl e ->
        statusCode e = Some 422 /\ code e = None
        /\ message e = "Invalid password: " ++ toString plain)
  /\ (truthy (a_password user) = true ->
      (hasPassword user (Some s) = Ret (None, false)
       <-> validatePassword (JsString s) <> inr true)).
Proof.
  split; [| split; [| split]].
  - unfold validatePassword. split.
    + destruct plain as [| | b | t]; simpl; try discriminate.
      destruct (String.eqb_spec t ""); simpl; [discriminate |].
      intros _. now exists t.
    + intros (t & -> & Ht). simpl.
      destruct (String.eqb_spec t ""); [contradiction | reflexivity].
  - unfold validatePassword.
    destruct (isString plain && truthyValue plain); discriminate.
  - unfold validatePassword.
    destruct (isString plain && truthyValue plain); [discriminate |].
    intros e [= <-]. repeat split.
  - intros H. unfold hasPassword, validatePassword. rewrite H. simpl.
    destruct (String.eqb_spec s ""); simpl; split; try discriminate; auto;
      try (intros N; now elim N).
Qed.

Lemma X12_validatePassword_witness :
  hasPassword alice (Some "") = Ret (None, false)
  <-> validatePassword (JsString "") <> inr true.
Proof.
  apply (X12_validatePassword JsUndefined "" alice). reflexivity.
Defined.

(** ** The remote hooks *)

(** X13.  After the [beforeRemote('create')] hook the request body never
    carries a truthy [emailVerified]: a truthy value is replaced by
    [false], a falsy one is left as it is, a missing body stays missing,
    and username, email and password are never changed.  Running the hook
    twice is running it once. *)
Theorem X13_create_cannot_set_emailVerified (body : option CreateBody) :
  match beforeRemoteCreate body, body with
  | Some b', Some b =>
      truthyValue (b_emailVerified b') = false
      /\ b_username b' = b_username b /\ b_email b' = b_email b
      /\ b_password b' = b_password b
      /\ (if truthyValue (b_emailVerified b)
          then b_emailVerified b' = JsBool false
          else b' = b)
  | None, None => True
  | _, _ => False
  end
  /\ beforeRemoteCreate (beforeRemoteCreate body) = beforeRemoteCreate body.
Proof.
  destruct body as [b|]; simpl; [| split; [exact I | reflexivity]].
  destruct (truthyValue (b_emailVerified b)) eqn:T; simpl.
  - repeat split; reflexivity.
  - rewrite T. repeat split; reflexivity.
Qed.

(** X14.  The [afterRemote('confirm')] hook reports an error exactly when a
    redirect target is given and the transport has no response object, and
    then writes nothing.  It writes to the response exactly when a target is
    given and a response exists: the location becomes the target (an empty
    string included) and the status 302.  Without a target the response is
    left alone and no error is reported. *)
Theorem X14_confirm_redirect (redirect : option string) (res : option Response) :
  (snd (afterRemoteConfirm redirect res) <> None
   <-> redirect <> None /\ res = None)
  /\ (forall e, snd (afterRemoteConfirm redirect res) = Some e ->
        e = noRedirectSupport /\ fst (afterRemoteConfirm redirect res) = None)
  /\ match redirect, res with
     | Some target, Some _ =>
         afterRemoteConfirm redirect res
         = (Some (mkResponse (Some target) (Some 302)), None)
     | _, _ => fst (afterRemoteConfirm redirect res) = res
     end.
Proof.
  destruct redirect as [target|], res as [r|]; simpl.
  - split; [split |].
    + intros H. now elim H.
    + intros [_ B]. discriminate.
    + split; [discriminate | reflexivity].
  - split; [split |].
    + intros _. split; [discriminate | reflexivity].
    + intros _. discriminate.
    + split; [| reflexivity]. intros e [= <-]. split; reflexivity.
  - split; [split |].
    + intros H. now elim H.
    + intros [A _]. now elim A.
    + split; [discriminate | reflexivity].
  - split; [split |].
    + intros H. now elim H.
    + intros [A _]. now elim A.
    + split; [discriminate | reflexivity].
Qed.

(** ** The tokens [login] asks for *)

Lemma ttlOr_nonzero (v : TtlValue) (b : Z) :
  b <> 0 ->
  match v with
  | TtlDecimal _ => True
  | _ => ttlOr v b <> 0
  end.
Proof.
  intros B. destruct v as [| | n | n]; try exact B; [| exact I].
  unfold ttlOr. simpl. destruct (Z.eqb_spec n 0); assumption.
Qed.

(** X15.  After [setup], whatever the collaborators answer, [login] asks
    the token store for at most one token; it asks for it on behalf of the
    account the lookup returned, with a [ttl] that is the minimum of
    [credentials.ttl] (or [settings.ttl] when that is falsy) and
    [settings.maxTTL], never above [settings.maxTTL].  When
    [credentials.ttl] is a number, [null] or missing that [ttl] is never
    [0]; a string of digits is truthy and is taken for the number it
    spells, so the string "0" asks for [ttl] 0.  There is no lower bound: a
    non-zero number not above [settings.maxTTL], negative ones included, is
    asked for as it is. *)
Theorem X15_login_token_requests {W : Type} (h : Handler W) (w : W)
    (m : ModelSettings) (credentials : Credentials) (include : Include) :
  Forall (fun ut =>
            snd ut = Z.min (ttlOr (c_ttl credentials) (s_ttl (setup m)))
                           (s_maxTTL (setup m))
            /\ snd ut <= s_maxTTL (setup m)
            /\ match c_ttl credentials with
               | TtlDecimal n => snd ut = Z.min (Z.of_N n) (s_maxTTL (setup m))
               | _ => snd ut <> 0
               end
            /\ fst (h _ (FindOne (loginQuery (setup m) credentials)) w)
               = (None, Some (fst ut)))
         (tokenRequests (trace (run h (login (setup m) credentials include) w)))
  /\ (length (tokenRequests (trace (run h (login (setup m) credentials include) w)))
      <= 1)%nat
  /\ (forall n, c_ttl credentials = TtlNumber n -> n <> 0 ->
                n <= s_maxTTL (setup m) ->
        Z.min (ttlOr (c_ttl credentials) (s_ttl (setup m))) (s_maxTTL (setup m)) = n)
  /\ (c_ttl credentials = TtlDecimal 0 ->
      Z.min (ttlOr (c_ttl credentials) (s_ttl (setup m))) (s_maxTTL (setup m))
      = Z.min 0 (s_maxTTL (setup m))).
Proof.
  assert (T : s_ttl (setup m) <> 0) by (apply or_num_nonzero; discriminate).
  assert (M : s_maxTTL (setup m) <> 0) by (apply or_num_nonzero; discriminate).
  set (s := setup m) in *. clearbody s.
  split; [| split; [| split]].
  3: { intros n -> N L. unfold ttlOr. simpl.
       destruct (Z.eqb_spec n 0); [contradiction | simpl; lia]. }
  3: { intros ->. reflexivity. }
  all: destruct (login_start s credentials include) as [-> | [-> | ->]];
    [simpl; first [lia | apply List.Forall_nil]
    | simpl; first [lia | apply List.Forall_nil] |].
  all: rewrite run_Vis;
    destruct (h _ (FindOne (loginQuery s credentials)) w)
      as [[[e|] [user|]] w1]; simpl fst; simpl snd;
    try (unfold login_findOne_cb; simpl; first [lia | apply List.Forall_nil]).
  all: rewrite login_cb_found; cbv zeta;
    destruct (hasPassword_run h w1 user (c_password credentials))
      as [[_ ->] | (p & hash & _ & _ & _ & _ & ->)];
    [simpl; first [lia | apply List.Forall_nil] |];
    simpl outcome; simpl final; simpl trace;
    destruct (h _ (BcryptCompare p hash) w1) as [[[e|] mt] w2];
    simpl fst; simpl snd; [simpl; first [lia | apply List.Forall_nil] |].
  all: destruct mt; [| simpl; first [lia | apply List.Forall_nil]].
  all: destruct (s_emailVerificationRequired s && negb (a_emailVerified user));
    [simpl; first [lia | apply List.Forall_nil] |].
  all: rewrite run_Vis;
    destruct (h _ (AccessTokensCreate user _) w2) as [[e | stored] w3].
  1, 2: simpl; constructor; [| constructor]; simpl;
    (split; [reflexivity |]; split; [apply Z.le_min_r |]; split; [| reflexivity];
     pose proof (ttlOr_nonzero (c_ttl credentials) (s_ttl s) T) as NZ;
     destruct (c_ttl credentials); try reflexivity;
     apply min_nonzero; assumption).
  all: simpl; lia.
Qed.

(** ** The [include] argument *)

Ltac by_cases_on_char c :=
  destruct c as [[] [] [] [] [] [] [] []]; vm_compute;
  (split;
   [ intros E; first [discriminate E | auto]
   | intros [E | E]; first [discriminate E | reflexivity] ]).

Lemma lower_is_u (c : ascii) :
  toLowerCase_ascii c = "u"%char <-> (c = "u" \/ c = "U")%char.
Proof. by_cases_on_char c. Qed.

Lemma lower_is_s (c : ascii) :
  toLowerCase_ascii c = "s"%char <-> (c = "s" \/ c = "S")%char.
Proof. by_cases_on_char c. Qed.

Lemma lower_is_e (c : ascii) :
  toLowerCase_ascii c = "e"%char <-> (c = "e" \/ c = "E")%char.
Proof. by_cases_on_char c. Qed.

Lemma lower_is_r (c : ascii) :
  toLowerCase_ascii c = "r"%char <-> (c = "r" \/ c = "R")%char.
Proof. by_cases_on_char c. Qed.

Lemma toLowerCase_user (s : string) : toLowerCase s = "user" <-> spellsUser s.
Proof.
  unfold spellsUser. split.
  - destruct s as [|c1 [|c2 [|c3 [|c4 [|c5 s]]]]]; simpl; try discriminate.
    intros [= E1 E2 E3 E4]. exists c1, c2, c3, c4.
    split; [reflexivity |].
    now rewrite <- lower_is_u, <- lower_is_s, <- lower_is_e, <- lower_is_r.
  - intros (c1 & c2 & c3 & c4 & -> & H1 & H2 & H3 & H4). simpl.
    apply lower_is_u in H1. apply lower_is_s in H2.
    apply lower_is_e in H3. apply lower_is_r in H4.
    now rewrite H1, H2, H3, H4.
Qed.

(** X16.  [login] attaches the account to the token exactly when
    [include] is a string that reads "user" in any letter case, or an array
    with such an element; a missing [include], the empty string and an
    empty array never do. *)
Theorem X16_include_user_any_case (include : Include) :
  includesUser (normalizeInclude include) = true
  <-> match include with
      | IncludeUndefined => False
      | IncludeString s => spellsUser s
      | IncludeArray l => Exists spellsUser l
      end.
Proof.
  destruct include as [| s | l]; cbn [normalizeInclude includesUser].
  - split; [discriminate | intros []].
  - rewrite <- toLowerCase_user. split.
    + intros E. now apply String.eqb_eq in E.
    + intros ->. reflexivity.
  - induction l as [|x l IH]; cbn [map existsb].
    + split; [discriminate | intros H; inversion H].
    + rewrite orb_true_iff, IH, List.Exists_cons, <- toLowerCase_user.
      split; (intros [E | E]; [left | right; exact E]).
      * apply String.eqb_eq in E. now symmetry.
      * rewrite E. reflexivity.
Qed.

(** ** The query [login] sends for a realm-qualified principal *)

(** X17.  When the delimiter is configured and the supplied username (no
    non-empty email being given) is a non-empty realm, the delimiter and a
    non-empty name, the delimiter not occurring earlier, [login] starts with
    a lookup of that name under that realm, whatever [credentials.realm]
    says; likewise for an email. *)
Theorem X17_login_realm_lookup (settings : Settings) (credentials : Credentials)
    (include : Include) (realm d name : string) :
  s_realmDelimiter settings = Some d -> d <> "" -> realm <> "" -> name <> "" ->
  (forall p : nat, (p < String.length realm)%nat ->
                   substring p (String.length d) (realm ++ d ++ name) <> d) ->
  (c_email credentials = Some (realm ++ d ++ name)
   \/ truthy (c_email credentials) = false
      /\ c_username credentials = Some (realm ++ d ++ name)) ->
  lookupOf (login settings credentials include)
  = Some (if truthy (c_email credentials)
          then mkQuery (Some name) None (Some realm)
          else mkQuery None (Some name) (Some realm)).
Proof.
  intros D Hd Hr Hn F P.
  assert (R : realmRequiredOf settings = true).
  { unfold realmRequiredOf. rewrite D, (truthy_nonempty d Hd). apply orb_true_r. }
  assert (N : realm ++ d ++ name <> "").
  { intros E. apply (f_equal String.length) in E. rewrite length_append in E.
    destruct realm; [contradiction | simpl in E; lia]. }
  pose proof (splitPrincipal_join realm d name Hd F) as S.
  assert (Tr : negb (String.eqb realm "") = true) by exact (truthy_nonempty realm Hr).
  assert (Tn : negb (String.eqb name "") = true) by exact (truthy_nonempty name Hn).
  unfold login, normalizeCredentials. rewrite R, D. simpl default.
  simpl negb. cbv iota.
  destruct P as [E | [Te E]].
  - rewrite E, (truthy_nonempty _ N). simpl default. rewrite S.
    destruct (truthy (c_realm credentials));
      repeat (progress (simpl; rewrite ?Tr, ?Tn)); reflexivity.
  - rewrite Te, E, (truthy_nonempty _ N). simpl default. rewrite S.
    destruct (truthy (c_realm credentials));
      repeat (progress (simpl; rewrite ?Tr, ?Tn)); reflexivity.
Qed.

Lemma X17_login_realm_lookup_witness :
  lookupOf (login realmSettings
              (mkCredentials (Some "tenantA/alice") None (Some "secret")
                 (Some "other") TtlUndefined)
              IncludeUndefined)
  = Some (mkQuery None (Some "alice") (Some "tenantA")).
Proof.
  apply (X17_login_realm_lookup realmSettings
           (mkCredentials (Some "tenantA/alice") None (Some "secret")
              (Some "other") TtlUndefined)
           IncludeUndefined "tenantA" "/" "alice" eq_refl).
  - discriminate.
  - discriminate.
  - discriminate.
  - intros p Hp. do 7 (destruct p as [|p]; [discriminate |]). simpl in Hp. lia.
  - right. split; reflexivity.
Defined.
